(** * HRMS Lite: employee registry and attendance ledger

    A shallow embedding of [backend/models.py], [backend/database.py] and
    [backend/main.py].  The MongoDB database is a pair of collections, each a
    list of documents in insertion order; every handler is a function from
    the database to a result and the database it leaves behind.  What the
    program takes from its environment on each call (the [ObjectId] the
    driver generates for an inserted document and [datetime.utcnow()]) is an
    explicit argument [Env]. *)

From Stdlib Require Import List String Ascii Bool NArith Lia.
From Stdlib Require Import Permutation Sorted.
Import ListNotations.
Local Open Scope string_scope.
Local Open Scope N_scope.

(* ===================================================================== *)
(** ** bson.ObjectId (the part [main.py] calls) *)
(* ===================================================================== *)

Module Bson.

(** Python [bytes]: a sequence of 8-bit characters. *)
Definition bytes := string.

(** An [ObjectId] wraps the binary id, [ObjectId.binary]. *)
Definition ObjectId := bytes.

(** Value of one hexadecimal digit, either case. *)
Definition hexval (c : ascii) : option N :=
  let n := N_of_ascii c in
  if (48 <=? n) && (n <=? 57) then Some (n - 48)
  else if (97 <=? n) && (n <=? 102) then Some (n - 87)
  else if (65 <=? n) && (n <=? 70) then Some (n - 55)
  else None.

(** ASCII white space, which [bytes.fromhex] skips between bytes. *)
Definition isspace (c : ascii) : bool :=
  let n := N_of_ascii c in
  ((9 <=? n) && (n <=? 13)) || (n =? 32).

(** [bytes.fromhex]: two hexadecimal digits per byte; [None] is ValueError. *)
Fixpoint fromhex (s : string) : option bytes :=
  match s with
  | EmptyString => Some EmptyString
  | String c rest =>
      if isspace c then fromhex rest
      else
        match hexval c, rest with
        | Some hi, String d rest' =>
            match hexval d with
            | Some lo =>
                option_map (String (ascii_of_N (16 * hi + lo))) (fromhex rest')
            | None => None
            end
        | _, _ => None
        end
  end.

(** [ObjectId(oid)] for a [str] argument: 24 characters that [fromhex]
    accepts; [None] is InvalidId. *)
Definition ObjectId_of_str (oid : string) : option ObjectId :=
  if (N.of_nat (String.length oid) =? 24) then fromhex oid else None.

(** [ObjectId.is_valid]. *)
Definition is_valid (oid : string) : bool :=
  match ObjectId_of_str oid with
  | Some _ => true
  | None => false
  end.

Definition hexdigit (n : N) : ascii :=
  if n <? 10 then ascii_of_N (48 + n) else ascii_of_N (87 + n).

(** [str(oid)]: [binascii.hexlify] of the binary id, lower case. *)
Fixpoint str (b : ObjectId) : string :=
  match b with
  | EmptyString => EmptyString
  | String c rest =>
      String (hexdigit (N_of_ascii c / 16))
        (String (hexdigit (N_of_ascii c mod 16)) (str rest))
  end.

End Bson.

(* ===================================================================== *)
(** ** models.py *)
(* ===================================================================== *)

Module Models.

(** [datetime.date]. *)
Record date := { year : N; month : N; day : N }.

(** [datetime.datetime], to the second (what the program prints), with the
    milliseconds the store keeps. *)
Record datetime :=
  { dt_date : date; hour : N; minute : N; second : N; millisecond : N }.

Definition digit (n : N) : ascii := ascii_of_N (48 + n mod 10).

Definition pad2 (n : N) : string :=
  String (digit (n / 10)) (String (digit n) EmptyString).

Definition pad4 (n : N) : string :=
  String (digit (n / 1000)) (String (digit (n / 100)) (pad2 n)).

(** [d.strftime("%Y-%m-%d")]. *)
Definition strftime_date (d : date) : string :=
  pad4 (year d) ++ "-" ++ pad2 (month d) ++ "-" ++ pad2 (day d).

(** [t.strftime("%Y-%m-%d %H:%M:%S")]. *)
Definition strftime_datetime (t : datetime) : string :=
  strftime_date (dt_date t) ++ " " ++ pad2 (hour t) ++ ":" ++
  pad2 (minute t) ++ ":" ++ pad2 (second t).

(** The instant of a datetime as one number; on well-formed datetimes its
    order is the order of the instants, which is how the store compares
    two datetimes. *)
Definition datetime_key (t : datetime) : N :=
  let d := dt_date t in
  (((((year d * 12 + month d) * 31 + day d) * 24 + hour t) * 60
     + minute t) * 60 + second t) * 1000 + millisecond t.

(** [EmployeeCreate]: the four fields of [EmployeeBase].  Strings are byte
    strings; on ASCII text their length is the number of characters. *)
Record EmployeeCreate :=
  { employee_id : string; full_name : string; email : string;
    department : string }.

Definition length_between (lo hi : N) (s : string) : bool :=
  let n := N.of_nat (String.length s) in (lo <=? n) && (n <=? hi).

(** The [Field] bounds of [EmployeeBase], and [EmailStr] through
    [validate_email], which returns the address it keeps. *)
Definition EmployeeCreate_validate (validate_email : string -> option string)
    (body : EmployeeCreate) : option EmployeeCreate :=
  if length_between 3 20 (employee_id body)
     && length_between 2 100 (full_name body)
     && length_between 2 50 (department body)
  then
    match validate_email (email body) with
    | Some addr =>
        Some {| employee_id := employee_id body; full_name := full_name body;
                email := addr; department := department body |}
    | None => None
    end
  else None.

(** [AttendanceCreate]: the three fields of [AttendanceBase], validated. *)
Record AttendanceCreate :=
  { att_employee_id : string; att_date : date; att_status : string }.

(** The body of POST /api/attendance as it reaches the model: the date
    field is what the date coercion made of it, [None] when it is no
    calendar date. *)
Record AttendanceBody :=
  { body_employee_id : string; body_date : option date;
    body_status : string }.

(** [pattern="^(Present|Absent)$"] on [status]. *)
Definition status_pattern (s : string) : bool :=
  (s =? "Present")%string || (s =? "Absent")%string.

(** Construction of an [AttendanceCreate] from a request body; [None] is a
    validation error. *)
Definition AttendanceCreate_validate (body : AttendanceBody)
    : option AttendanceCreate :=
  match body_date body with
  | Some d =>
      if status_pattern (body_status body)
      then Some {| att_employee_id := body_employee_id body; att_date := d;
                   att_status := body_status body |}
      else None
  | None => None
  end.

End Models.

(* ===================================================================== *)
(** ** The document store behind [database.get_database()] *)
(* ===================================================================== *)

Module Store.
Import Bson Models.

(** A document of [db.employees]. [e_id] is the key ["_id"]. *)
Record EmployeeDoc :=
  { e_id : ObjectId; e_employee_id : string; e_full_name : string;
    e_email : string; e_department : string; e_created_at : datetime }.

(** A document of [db.attendances]. [a_employee_id] is the string the
    request carried; [a_date] is an ISO date string. *)
Record AttendanceDoc :=
  { a_id : ObjectId; a_employee_id : string; a_date : string;
    a_status : string; a_marked_at : datetime }.

(** [db]: the two collections, documents in insertion order. *)
Record Database :=
  { employees : list EmployeeDoc; attendances : list AttendanceDoc }.

Definition empty_db : Database := {| employees := []; attendances := [] |}.

Section Collection.
Context {Doc : Type} (oid_of : Doc -> ObjectId).

(** [find_one(filter)]: the first matching document, if any. *)
Definition find_one (q : Doc -> bool) (c : list Doc) : option Doc :=
  List.find q c.

(** [find(filter)]: every matching document. *)
Definition find (q : Doc -> bool) (c : list Doc) : list Doc :=
  List.filter q c.

(** [insert_one]: the store keeps ["_id"] unique; [None] is the driver's
    duplicate-key error. *)
Definition insert_one (d : Doc) (c : list Doc) : option (list Doc) :=
  if existsb (fun x => (oid_of x =? oid_of d)%string) c then None
  else Some (c ++ [d])%list.

(** [delete_one(filter)]: removes the first matching document. *)
Fixpoint delete_one (q : Doc -> bool) (c : list Doc) : list Doc :=
  match c with
  | [] => []
  | x :: rest => if q x then rest else x :: delete_one q rest
  end.

(** [delete_many(filter)]: removes every matching document. *)
Definition delete_many (q : Doc -> bool) (c : list Doc) : list Doc :=
  List.filter (fun x => negb (q x)) c.

(** [cursor.sort(key, -1)]: [leb x y] compares the keys of two documents;
    the result is in descending order of the key. *)
Fixpoint insert_desc (leb : Doc -> Doc -> bool) (x : Doc) (l : list Doc)
    : list Doc :=
  match l with
  | [] => [x]
  | y :: rest => if leb y x then x :: l else y :: insert_desc leb x rest
  end.

Definition sort_desc (leb : Doc -> Doc -> bool) (l : list Doc) : list Doc :=
  fold_right (insert_desc leb) [] l.
End Collection.

(** Order of the key ["created_at"]. *)
Definition created_at_leb (x y : EmployeeDoc) : bool :=
  datetime_key (e_created_at x) <=? datetime_key (e_created_at y).

(** Order of the key ["date"]: strings compare byte by byte. *)
Definition date_leb (x y : AttendanceDoc) : bool :=
  (a_date x <=? a_date y)%string.

End Store.

(* ===================================================================== *)
(** ** main.py: the handlers *)
(* ===================================================================== *)

Module Main.
Import Bson Models Store.

(** What one call takes from outside the program. *)
Record Env := { new_oid : ObjectId; utcnow : datetime }.

(** [HTTPException(status_code, detail)]. *)
Record HTTPException := { status_code : N; detail : string }.

(** A handler returns its dict or raises an [HTTPException]. *)
Inductive Result (A : Type) : Type :=
| Return (a : A)
| Raise (e : HTTPException).
Arguments Return {A} a.
Arguments Raise {A} e.

Definition HTTP_400_BAD_REQUEST : N := 400.
Definition HTTP_404_NOT_FOUND : N := 404.
Definition HTTP_422_UNPROCESSABLE_ENTITY : N := 422.
Definition HTTP_500_INTERNAL_SERVER_ERROR : N := 500.

(** The double quote character. *)
Definition dq : string := String (ascii_of_N 34) EmptyString.

(** The five failures the handlers raise. *)
Definition InvalidIdentifier : HTTPException :=
  {| status_code := HTTP_400_BAD_REQUEST;
     detail := "Invalid employee ID format" |}.

Definition NotFound (employee_id : string) : HTTPException :=
  {| status_code := HTTP_404_NOT_FOUND;
     detail := "Employee with ID " ++ employee_id ++ " not found" |}.

Definition ValidationError : HTTPException :=
  {| status_code := HTTP_400_BAD_REQUEST;
     detail := "Status must be either " ++ dq ++ "Present" ++ dq ++ " or "
               ++ dq ++ "Absent" ++ dq |}.

Definition DuplicateKeyError_employee_id (v : string) : HTTPException :=
  {| status_code := HTTP_400_BAD_REQUEST;
     detail := "Employee ID '" ++ v ++ "' already exists" |}.

Definition DuplicateKeyError_email (v : string) : HTTPException :=
  {| status_code := HTTP_400_BAD_REQUEST;
     detail := "Email '" ++ v ++ "' is already registered" |}.

Definition DuplicateRecord (name date_str : string) : HTTPException :=
  {| status_code := HTTP_400_BAD_REQUEST;
     detail := "Attendance already marked for " ++ name ++ " on "
               ++ date_str |}.

(** [except Exception as e]: status 500 with [str(e)]. *)
Definition StoreError (msg : string) : HTTPException :=
  {| status_code := HTTP_500_INTERNAL_SERVER_ERROR; detail := msg |}.

(** An employee document formatted for a response. *)
Record EmployeeJson :=
  { j_id : string; j_employee_id : string; j_full_name : string;
    j_email : string; j_department : string; j_created_at : string }.

Definition format_employee (e : EmployeeDoc) : EmployeeJson :=
  {| j_id := str (e_id e); j_employee_id := e_employee_id e;
     j_full_name := e_full_name e; j_email := e_email e;
     j_department := e_department e;
     j_created_at := strftime_datetime (e_created_at e) |}.

(** A response with a list carries ["data"] and ["count"]. *)
Record Listing (A : Type) := { data : list A; count : N }.
Arguments data {A} l.
Arguments count {A} l.

Definition listing {A : Type} (l : list A) : Listing A :=
  {| data := l; count := N.of_nat (List.length l) |}.

(** A response with ["message"] and ["data"]. *)
Record Created (A : Type) := { message : string; created : A }.
Arguments message {A} c.
Arguments created {A} c.

Definition by_id (oid : ObjectId) (e : EmployeeDoc) : bool :=
  (e_id e =? oid)%string.

(** GET /api/employees *)
Definition get_all_employees (db : Database)
    : Result (Listing EmployeeJson) * Database :=
  let employees := sort_desc created_at_leb (find (fun _ => true) (employees db)) in
  (Return (listing (map format_employee employees)), db).

(** POST /api/employees *)
Definition add_employee (env : Env) (employee : EmployeeCreate) (db : Database)
    : Result (Created EmployeeJson) * Database :=
  match find_one (fun e => (e_employee_id e =? employee_id employee)%string)
          (employees db) with
  | Some _ => (Raise (DuplicateKeyError_employee_id (employee_id employee)), db)
  | None =>
  match find_one (fun e => (e_email e =? email employee)%string)
          (employees db) with
  | Some _ => (Raise (DuplicateKeyError_email (email employee)), db)
  | None =>
      let new_employee :=
        {| e_id := new_oid env;
           e_employee_id := employee_id employee;
           e_full_name := full_name employee;
           e_email := email employee;
           e_department := department employee;
           e_created_at := utcnow env |} in
      match insert_one e_id new_employee (employees db) with
      | None => (Raise (StoreError "duplicate key error"), db)
      | Some employees' =>
          let db' := {| employees := employees';
                        attendances := attendances db |} in
          match find_one (by_id (new_oid env)) employees' with
          | Some created_employee =>
              (Return {| message := "Employee added successfully";
                         created := format_employee created_employee |}, db')
          | None =>
              (Raise (StoreError "'NoneType' object is not subscriptable"), db')
          end
      end
  end end.

(** GET /api/employees/{employee_id} *)
Definition get_employee (employee_id : string) (db : Database)
    : Result EmployeeJson * Database :=
  match ObjectId_of_str employee_id with
  | None => (Raise InvalidIdentifier, db)
  | Some oid =>
      match find_one (by_id oid) (employees db) with
      | None => (Raise (NotFound employee_id), db)
      | Some employee => (Return (format_employee employee), db)
      end
  end.

(** DELETE /api/employees/{employee_id} *)
Definition delete_employee (employee_id : string) (db : Database)
    : Result string * Database :=
  match ObjectId_of_str employee_id with
  | None => (Raise InvalidIdentifier, db)
  | Some oid =>
      match find_one (by_id oid) (employees db) with
      | None => (Raise (NotFound employee_id), db)
      | Some employee =>
          let employees' := delete_one (by_id oid) (employees db) in
          let attendances' :=
            delete_many (fun r => (a_employee_id r =? employee_id)%string)
              (attendances db) in
          (Return ("Employee " ++ e_full_name employee
                   ++ " deleted successfully"),
           {| employees := employees'; attendances := attendances' |})
      end
  end.

(** The record POST /api/attendance returns. *)
Record AttendanceJson :=
  { m_id : string; m_employee_id : string; m_date : string;
    m_status : string; m_marked_at : string; m_employee_name : string }.

(** POST /api/attendance *)
Definition mark_attendance (env : Env) (attendance : AttendanceCreate)
    (db : Database) : Result (Created AttendanceJson) * Database :=
  match ObjectId_of_str (att_employee_id attendance) with
  | None => (Raise InvalidIdentifier, db)
  | Some oid =>
  match find_one (by_id oid) (employees db) with
  | None => (Raise (NotFound (att_employee_id attendance)), db)
  | Some employee =>
      if negb ((att_status attendance =? "Present")%string
               || (att_status attendance =? "Absent")%string)
      then (Raise ValidationError, db)
      else
        let date_str := strftime_date (att_date attendance) in
        match find_one
                (fun r => (a_employee_id r =? att_employee_id attendance)%string
                          && (a_date r =? date_str)%string)
                (attendances db) with
        | Some _ =>
            (Raise (DuplicateRecord (e_full_name employee) date_str), db)
        | None =>
            let new_attendance :=
              {| a_id := new_oid env;
                 a_employee_id := att_employee_id attendance;
                 a_date := date_str;
                 a_status := att_status attendance;
                 a_marked_at := utcnow env |} in
            match insert_one a_id new_attendance (attendances db) with
            | None => (Raise (StoreError "duplicate key error"), db)
            | Some attendances' =>
                let db' := {| employees := employees db;
                              attendances := attendances' |} in
                match find_one (fun r => (a_id r =? new_oid env)%string)
                        attendances' with
                | Some created =>
                    (Return
                       {| message := "Attendance marked for "
                                     ++ e_full_name employee;
                          created :=
                            {| m_id := str (a_id created);
                               m_employee_id := a_employee_id created;
                               m_date := a_date created;
                               m_status := a_status created;
                               m_marked_at :=
                                 strftime_datetime (a_marked_at created);
                               m_employee_name := e_full_name employee |} |},
                     db')
                | None =>
                    (Raise (StoreError "'NoneType' object is not subscriptable"),
                     db')
                end
            end
        end
  end end.

(** One entry of GET /api/attendance. *)
Record AttendanceRow :=
  { r_id : string; r_employee_id : string; r_employee_name : string;
    r_details_employee_id : string; r_details_department : string;
    r_date : string; r_status : string; r_marked_at : string }.

(** [employees[str(emp["_id"])] = emp] over the collection, then
    [employees.get(key, {})]: the last document stored under the key. *)
Definition employees_get (emps : list EmployeeDoc) (key : string)
    : option EmployeeDoc :=
  List.find (fun e => (str (e_id e) =? key)%string) (rev emps).

Definition format_row (emps : list EmployeeDoc) (record : AttendanceDoc)
    : AttendanceRow :=
  let emp := employees_get emps (a_employee_id record) in
  {| r_id := str (a_id record);
     r_employee_id := a_employee_id record;
     r_employee_name :=
       match emp with Some e => e_full_name e | None => "Unknown" end;
     r_details_employee_id :=
       match emp with Some e => e_employee_id e | None => "N/A" end;
     r_details_department :=
       match emp with Some e => e_department e | None => "N/A" end;
     r_date := a_date record;
     r_status := a_status record;
     r_marked_at := strftime_datetime (a_marked_at record) |}.

(** [query = {}; if date: query["date"] = date]. *)
Definition date_query (date : option string) (r : AttendanceDoc) : bool :=
  match date with
  | None => true
  | Some d => if (d =? "")%string then true else (a_date r =? d)%string
  end.

(** GET /api/attendance?date= *)
Definition get_attendance (date : option string) (db : Database)
    : Result (Listing AttendanceRow) * Database :=
  let records := sort_desc date_leb (find (date_query date) (attendances db)) in
  (Return (listing (map (format_row (employees db)) records)), db).

(** One entry of GET /api/attendance/employee/{employee_id}. *)
Record AttendanceItem :=
  { i_id : string; i_date : string; i_status : string; i_marked_at : string }.

Definition format_item (record : AttendanceDoc) : AttendanceItem :=
  {| i_id := str (a_id record); i_date := a_date record;
     i_status := a_status record;
     i_marked_at := strftime_datetime (a_marked_at record) |}.

(** The ["employee"] part of that response. *)
Record EmployeeProfile :=
  { p_id : string; p_employee_id : string; p_full_name : string;
    p_email : string; p_department : string }.

(** GET /api/attendance/employee/{employee_id} *)
Definition get_employee_attendance (employee_id : string) (db : Database)
    : Result (EmployeeProfile * Listing AttendanceItem) * Database :=
  match ObjectId_of_str employee_id with
  | None => (Raise InvalidIdentifier, db)
  | Some oid =>
      match find_one (by_id oid) (employees db) with
      | None => (Raise (NotFound employee_id), db)
      | Some employee =>
          let records :=
            sort_desc date_leb
              (find (fun r => (a_employee_id r =? employee_id)%string)
                 (attendances db)) in
          (Return
             ({| p_id := str (e_id employee);
                 p_employee_id := e_employee_id employee;
                 p_full_name := e_full_name employee;
                 p_email := e_email employee;
                 p_department := e_department employee |},
              listing (map format_item records)), db)
      end
  end.

(* --------------------------------------------------------------------- *)
(** *** The routes: request validation, then the handler *)
(* --------------------------------------------------------------------- *)

(** What a route answers: the handler's result, or the rejection of a body
    the request model does not accept, which never reaches the handler. *)
Inductive Response (A : Type) : Type :=
| Handled (r : Result A)
| RequestValidationError.
Arguments Handled {A} r.
Arguments RequestValidationError {A}.

(** The status line: [ok] is the route's own success code. *)
Definition http_status {A : Type} (ok : N) (r : Response A) : N :=
  match r with
  | Handled (Return _) => ok
  | Handled (Raise e) => status_code e
  | RequestValidationError => HTTP_422_UNPROCESSABLE_ENTITY
  end.

(** POST /api/employees with body [body]. *)
Definition post_employees (validate_email : string -> option string)
    (env : Env) (body : EmployeeCreate) (db : Database)
    : Response (Created EmployeeJson) * Database :=
  match EmployeeCreate_validate validate_email body with
  | None => (RequestValidationError, db)
  | Some employee =>
      let p := add_employee env employee db in (Handled (fst p), snd p)
  end.

(** POST /api/attendance with body [body]. *)
Definition post_attendance (env : Env) (body : AttendanceBody) (db : Database)
    : Response (Created AttendanceJson) * Database :=
  match AttendanceCreate_validate body with
  | None => (RequestValidationError, db)
  | Some attendance =>
      let p := mark_attendance env attendance db in (Handled (fst p), snd p)
  end.

(** A request to the application, with what the call takes from its
    environment. *)
Inductive Request : Type :=
| GET_employees
| POST_employees (env : Env) (body : EmployeeCreate)
| GET_employee (employee_id : string)
| DELETE_employee (employee_id : string)
| POST_attendance (env : Env) (body : AttendanceBody)
| GET_attendance (date : option string)
| GET_employee_attendance (employee_id : string).

(** The JSON a successful request returns. *)
Inductive Content : Type :=
| EmployeesContent (c : Listing EmployeeJson)
| AddedContent (c : Created EmployeeJson)
| EmployeeContent (c : EmployeeJson)
| DeletedContent (c : string)
| MarkedContent (c : Created AttendanceJson)
| AttendanceContent (c : Listing AttendanceRow)
| EmployeeAttendanceContent (c : EmployeeProfile * Listing AttendanceItem).

Definition map_result {A B : Type} (f : A -> B) (r : Result A) : Result B :=
  match r with
  | Return a => Return (f a)
  | Raise e => Raise e
  end.

Definition map_response {A B : Type} (f : A -> B) (r : Response A)
    : Response B :=
  match r with
  | Handled r => Handled (map_result f r)
  | RequestValidationError => RequestValidationError
  end.

Definition handled {A : Type} (f : A -> Content) (p : Result A * Database)
    : Response Content * Database :=
  (Handled (map_result f (fst p)), snd p).

(** The application: one request against the database. *)
Definition app (validate_email : string -> option string) (req : Request)
    (db : Database) : Response Content * Database :=
  match req with
  | GET_employees => handled EmployeesContent (get_all_employees db)
  | POST_employees env body =>
      let p := post_employees validate_email env body db in
      (map_response AddedContent (fst p), snd p)
  | GET_employee employee_id =>
      handled EmployeeContent (get_employee employee_id db)
  | DELETE_employee employee_id =>
      handled DeletedContent (delete_employee employee_id db)
  | POST_attendance env body =>
      let p := post_attendance env body db in
      (map_response MarkedContent (fst p), snd p)
  | GET_attendance date => handled AttendanceContent (get_attendance date db)
  | GET_employee_attendance employee_id =>
      handled EmployeeAttendanceContent (get_employee_attendance employee_id db)
  end.

(** Sequential execution: the databases a run of requests leaves, starting
    from the empty one. *)
Inductive reachable (validate_email : string -> option string)
    : Database -> Prop :=
| reachable_empty : reachable validate_email empty_db
| reachable_step (req : Request) (db : Database) :
    reachable validate_email db ->
    reachable validate_email (snd (app validate_email req db)).

(** A request failed with one of the domain errors: a 400 or 404 raised by
    the handler, or the rejection of the body. *)
Definition domain_error {A : Type} (r : Response A) : Prop :=
  match r with
  | Handled (Return _) => False
  | Handled (Raise e) =>
      status_code e = HTTP_400_BAD_REQUEST \/
      status_code e = HTTP_404_NOT_FOUND
  | RequestValidationError => True
  end.

(** The attendance records of one employee id on one date. *)
Definition records_for (employee_id date_str : string) (db : Database)
    : list AttendanceDoc :=
  filter (fun r => (a_employee_id r =? employee_id)%string
                   && (a_date r =? date_str)%string) (attendances db).

(** The natural key of an attendance record. *)
Definition day_key (r : AttendanceDoc) : string * string :=
  (a_employee_id r, a_date r).

(** The store keeps ["_id"] unique within a collection. *)
Definition unique_ids (db : Database) : Prop :=
  NoDup (map e_id (employees db)) /\ NoDup (map a_id (attendances db)).

End Main.

(* ===================================================================== *)
(** ** The documents the handlers build, and the remaining helpers *)
(* ===================================================================== *)

Module Documents.
Import Bson Models Store Main.

(** [new_employee] of [add_employee], with the ["_id"] the driver adds. *)
Definition employee_doc (env : Env) (employee : EmployeeCreate) : EmployeeDoc :=
  {| e_id := new_oid env;
     e_employee_id := employee_id employee;
     e_full_name := full_name employee;
     e_email := email employee;
     e_department := department employee;
     e_created_at := utcnow env |}.

(** [new_attendance] of [mark_attendance], with its ["_id"]. *)
Definition attendance_doc (env : Env) (attendance : AttendanceCreate)
    : AttendanceDoc :=
  {| a_id := new_oid env;
     a_employee_id := att_employee_id attendance;
     a_date := strftime_date (att_date attendance);
     a_status := att_status attendance;
     a_marked_at := utcnow env |}.

(** The record [mark_attendance] returns for a stored document. *)
Definition format_marked (name : string) (r : AttendanceDoc) : AttendanceJson :=
  {| m_id := str (a_id r); m_employee_id := a_employee_id r;
     m_date := a_date r; m_status := a_status r;
     m_marked_at := strftime_datetime (a_marked_at r);
     m_employee_name := name |}.

(** The requests served by a GET route. *)
Definition is_get (req : Request) : bool :=
  match req with
  | GET_employees | GET_employee _ | GET_attendance _
  | GET_employee_attendance _ => true
  | POST_employees _ _ | DELETE_employee _ | POST_attendance _ _ => false
  end.

(** The values a [datetime.date] can hold: years 1 to 9999, a month and a
    day of the calendar. *)
Definition date_ok (d : date) : Prop :=
  1 <= year d <= 9999 /\ 1 <= month d <= 12 /\ 1 <= day d <= 31.

(** [PyObjectId.validate] on a string; [None] is the ValueError. *)
Definition PyObjectId_validate (v : string) : option ObjectId :=
  if negb (is_valid v) then None else ObjectId_of_str v.

(** The values the documents of this program hold under a key. *)
Inductive Value : Type :=
| VObjectId (oid : ObjectId)
| VStr (s : string)
| VDatetime (t : datetime).

Definition pad3 (n : N) : string := String (digit (n / 100)) (pad2 n).

(** [str(v)]: a string is itself, an ObjectId its hexadecimal form, a
    datetime its ISO form with a space, the fraction printed when it is
    not zero. *)
Definition str_value (v : Value) : string :=
  match v with
  | VObjectId oid => str oid
  | VStr s => s
  | VDatetime t =>
      if millisecond t =? 0 then strftime_datetime t
      else strftime_datetime t ++ "." ++ pad3 (millisecond t) ++ "000"
  end.

(** A Python dict with string keys: the items in insertion order. *)
Definition Dict := list (string * Value).

(** [key in doc]. *)
Definition dict_has (key : string) (doc : Dict) : bool :=
  existsb (fun kv => (fst kv =? key)%string) doc.

(** [doc[key] = v] for a key the dict has: the item keeps its place. *)
Fixpoint dict_set (key : string) (v : Value) (doc : Dict) : Dict :=
  match doc with
  | [] => [(key, v)]
  | (k, w) :: rest =>
      if (k =? key)%string then (k, v) :: rest
      else (k, w) :: dict_set key v rest
  end.

(** [doc[key]]. *)
Definition dict_get (key : string) (doc : Dict) : option Value :=
  option_map snd (List.find (fun kv => (fst kv =? key)%string) doc).

(** [serialize_doc]: [None] and the empty dict are falsy and returned as
    they are. *)
Definition serialize_doc (doc : option Dict) : option Dict :=
  match doc with
  | None => None
  | Some [] => Some []
  | Some d =>
      if dict_has "_id" d
      then
        match dict_get "_id" d with
        | Some v => Some (dict_set "_id" (VStr (str_value v)) d)
        | None => Some d
        end
      else Some d
  end.

(** An employee document as the dict the driver returns. *)
Definition employee_dict (e : EmployeeDoc) : Dict :=
  [("_id", VObjectId (e_id e)); ("employee_id", VStr (e_employee_id e));
   ("full_name", VStr (e_full_name e)); ("email", VStr (e_email e));
   ("department", VStr (e_department e));
   ("created_at", VDatetime (e_created_at e))].

(** The three ways a request writes: an employee is appended, an employee
    and the records under its id string are deleted, an attendance record
    is appended.  Each comes with the checks that were passed. *)
Inductive Writes (validate_email : string -> option string)
    (db : Database) : Request -> Database -> Prop :=
| Writes_employee env body employee :
    EmployeeCreate_validate validate_email body = Some employee ->
    (forall e, In e (employees db) ->
               e_employee_id e <> employee_id employee) ->
    (forall e, In e (employees db) -> e_email e <> email employee) ->
    (forall e, In e (employees db) -> e_id e <> new_oid env) ->
    Writes validate_email db (POST_employees env body)
      {| employees := (employees db ++ [employee_doc env employee])%list;
         attendances := attendances db |}
| Writes_delete id oid employee :
    ObjectId_of_str id = Some oid ->
    find_one (by_id oid) (employees db) = Some employee ->
    Writes validate_email db (DELETE_employee id)
      {| employees := delete_one (by_id oid) (employees db);
         attendances :=
           delete_many (fun r => (a_employee_id r =? id)%string)
             (attendances db) |}
| Writes_attendance env body attendance oid employee :
    AttendanceCreate_validate body = Some attendance ->
    ObjectId_of_str (att_employee_id attendance) = Some oid ->
    find_one (by_id oid) (employees db) = Some employee ->
    status_pattern (att_status attendance) = true ->
    (forall r, In r (attendances db) ->
               day_key r <> day_key (attendance_doc env attendance)) ->
    (forall r, In r (attendances db) -> a_id r <> new_oid env) ->
    Writes validate_email db (POST_attendance env body)
      {| employees := employees db;
         attendances :=
           (attendances db ++ [attendance_doc env attendance])%list |}.

End Documents.

(* ===================================================================== *)
(** ** database.py: the connection the handlers share *)
(* ===================================================================== *)

Module DatabasePy.

(** [os.getenv(name, default)] over the environment of the process. *)
Definition getenv (environ : string -> option string) (name default : string)
    : string :=
  match environ name with
  | Some v => v
  | None => default
  end.

Definition MONGO_URI (environ : string -> option string) : string :=
  getenv environ "MONGO_URI" "mongodb://localhost:27017".

Definition DATABASE_NAME (environ : string -> option string) : string :=
  getenv environ "DATABASE_NAME" "hrms_lite".

(** A client object: where it points, and whether [close()] was called. *)
Record MotorClient := { uri : string; closed : bool }.

(** The module at run time: the client objects created so far, in order of
    creation, the globals [client] and [db], which refer to a client object
    by its position, and what was printed. [db] is [client[name]]. *)
Record Globals :=
  { objects : list MotorClient; client : option nat;
    db : option (nat * string); printed : list string }.

(** The module right after import: [client = None], [db = None]. *)
Definition imported : Globals :=
  {| objects := []; client := None; db := None; printed := [] |}.

Definition connect_to_mongo (environ : string -> option string) (g : Globals)
    : Globals :=
  let c := List.length (objects g) in
  {| objects :=
       (objects g ++ [{| uri := MONGO_URI environ; closed := false |}])%list;
     client := Some c;
     db := Some (c, DATABASE_NAME environ);
     printed := (printed g ++ ["✅ Connected to MongoDB"])%list |}.

(** [client.close()] on the object at position [c]. *)
Fixpoint close_at (c : nat) (l : list MotorClient) : list MotorClient :=
  match l, c with
  | [], _ => []
  | x :: rest, O => {| uri := uri x; closed := true |} :: rest
  | x :: rest, S c' => x :: close_at c' rest
  end.

Definition close_mongo_connection (g : Globals) : Globals :=
  match client g with
  | Some c =>
      {| objects := close_at c (objects g);
         client := client g;
         db := db g;
         printed := (printed g ++ ["❌ Disconnected from MongoDB"])%list |}
  | None => g
  end.

Definition get_database (g : Globals) : option (nat * string) := db g.

(** The two calls [main.py] makes, on startup and on shutdown. *)
Inductive Call : Type := Connect | Close.

Definition call (environ : string -> option string) (g : Globals) (c : Call)
    : Globals :=
  match c with
  | Connect => connect_to_mongo environ g
  | Close => close_mongo_connection g
  end.

Definition calls (environ : string -> option string) (cs : list Call)
    : Globals :=
  fold_left (call environ) cs imported.

End DatabasePy.

(* ===================================================================== *)
(** ** The normal form of a date, in the words of the specification *)
(* ===================================================================== *)

Module SpecWords.
Import Models.

Fixpoint numeral_value (acc : N) (s : string) : option N :=
  match s with
  | EmptyString => Some acc
  | String c rest =>
      let n := N_of_ascii c in
      if (48 <=? n) && (n <=? 57)
      then numeral_value (10 * acc + (n - 48)) rest
      else None
  end.

(** A non-empty run of decimal digits. *)
Definition numeral (s : string) : option N :=
  match s with
  | EmptyString => None
  | _ => numeral_value 0 s
  end.

Fixpoint split_on (sep : ascii) (s : string) : list string :=
  match s with
  | EmptyString => [EmptyString]
  | String c rest =>
      if Ascii.eqb c sep then EmptyString :: split_on sep rest
      else
        match split_on sep rest with
        | [] => [String c EmptyString]
        | w :: ws => String c w :: ws
        end
  end.

(** Follows the specification, not the code ("Normalize date to its
    canonical ISO string form"): a date written as year, month and day
    numerals joined by hyphens, printed the way [mark_attendance] stores a
    date. *)
Definition iso_normal_form (s : string) : option string :=
  match split_on "-"%char s with
  | [y; m; d] =>
      match numeral y, numeral m, numeral d with
      | Some y, Some m, Some d =>
          Some (strftime_date {| year := y; month := m; day := d |})
      | _, _, _ => None
      end
  | _ => None
  end.

End SpecWords.

(* ===================================================================== *)
(** ** Sample data *)
(* ===================================================================== *)

Module Samples.
Import Bson Models Store Main.

(** A 12-byte id, and the two ways of writing it in hexadecimal. *)
Definition oid1 : ObjectId := "JKLMNOPQRSTU".
Definition id1 : string := "4a4b4c4d4e4f505152535455".
Definition ID1 : string := "4A4B4C4D4E4F505152535455".
Definition oid2 : ObjectId := "jklmnopqrstu".
Definition oid3 : ObjectId := "0123456789ab".
Definition oid4 : ObjectId := "ABCDEFGHIJKL".

Definition jan (d : N) : date := {| year := 2024; month := 1; day := d |}.

Definition at_nine (d : date) : datetime :=
  {| dt_date := d; hour := 9; minute := 30; second := 0; millisecond := 0 |}.

Definition john : EmployeeCreate :=
  {| employee_id := "EMP001"; full_name := "John Doe";
     email := "john@example.com"; department := "Engineering" |}.

Definition jane : EmployeeCreate :=
  {| employee_id := "EMP002"; full_name := "Jane Roe";
     email := "jane@example.com"; department := "Finance" |}.

Definition env1 : Env := {| new_oid := oid1; utcnow := at_nine (jan 9) |}.
Definition env2 : Env := {| new_oid := oid2; utcnow := at_nine (jan 10) |}.
Definition env3 : Env := {| new_oid := oid3; utcnow := at_nine (jan 11) |}.
Definition env4 : Env := {| new_oid := oid4; utcnow := at_nine (jan 12) |}.

(** An email check that keeps every address as it is. *)
Definition any_email (s : string) : option string := Some s.

(** The database after John was added. *)
Definition db_john : Database := snd (add_employee env1 john empty_db).

Definition present (id : string) (d : N) : AttendanceBody :=
  {| body_employee_id := id; body_date := Some (jan d);
     body_status := "Present" |}.

(** A body for 10 January with the status "Late". *)
Definition late (id : string) : AttendanceBody :=
  {| body_employee_id := id; body_date := Some (jan 10);
     body_status := "Late" |}.

(** John marked present on 5 January. *)
Definition db_marked : Database :=
  snd (post_attendance env2 (present id1 5) db_john).

(** John marked present on 5 and on 10 January. *)
Definition db_marked2 : Database :=
  snd (post_attendance env3 (present id1 10) db_marked).

(** John and Jane, each marked present on 5 January. *)
Definition db_two : Database :=
  snd (post_attendance env4 (present (str oid3) 5)
         (snd (add_employee env3 jane db_marked))).

End Samples.

(* ===================================================================== *)
(** ** Facts about [ObjectId] strings *)
(* ===================================================================== *)

Module BsonFacts.
Import Bson.

(** Reading back the two digits [str] prints for one byte. *)
Lemma fromhex_hexdigits (c : ascii) (rest : string) :
  fromhex (String (hexdigit (N_of_ascii c / 16))
             (String (hexdigit (N_of_ascii c mod 16)) rest))
  = option_map (String c) (fromhex rest).
Proof.
  destruct c as [[] [] [] [] [] [] [] []]; reflexivity.
Qed.

Lemma fromhex_str (b : ObjectId) : fromhex (str b) = Some b.
Proof.
  induction b as [|c b IH]; simpl str.
  - reflexivity.
  - rewrite fromhex_hexdigits, IH. reflexivity.
Qed.

Lemma length_str (b : ObjectId) :
  String.length (str b) = (2 * String.length b)%nat.
Proof.
  induction b as [|c b IH]; simpl; [reflexivity | rewrite IH; lia].
Qed.

(** [ObjectId(str(oid)) == oid] for a 12-byte id. *)
Lemma ObjectId_of_str_str (b : ObjectId) :
  String.length b = 12%nat -> ObjectId_of_str (str b) = Some b.
Proof.
  intros Hlen. unfold ObjectId_of_str.
  rewrite length_str, Hlen. simpl. apply fromhex_str.
Qed.

Lemma str_inj (b1 b2 : ObjectId) : str b1 = str b2 -> b1 = b2.
Proof.
  intros H. pose proof (fromhex_str b1) as H1.
  rewrite H, fromhex_str in H1. congruence.
Qed.


Lemma is_valid_false_iff (oid : string) :
  is_valid oid = false <-> ObjectId_of_str oid = None.
Proof.
  unfold is_valid. destruct (ObjectId_of_str oid); split; congruence.
Qed.

End BsonFacts.

(* ===================================================================== *)
(** ** Facts about the collections *)
(* ===================================================================== *)

Module StoreFacts.
Import Bson Store.

Section Collections.
Context {Doc : Type}.
Implicit Types (q : Doc -> bool) (c l : list Doc) (x d : Doc).

Lemma delete_one_incl q c x : In x (delete_one q c) -> In x c.
Proof.
  induction c as [|y c IH]; simpl; [tauto|].
  destruct (q y); simpl; intuition.
Qed.

Lemma delete_one_keeps q c x :
  q x = false -> In x c -> In x (delete_one q c).
Proof.
  intros Hq. induction c as [|y c IH]; simpl; [tauto|].
  intros [->|Hin].
  - rewrite Hq. now left.
  - destruct (q y); [assumption | right; auto].
Qed.

(** [delete_one] touches no document outside its filter. *)
Lemma delete_one_others q c :
  filter (fun x => negb (q x)) (delete_one q c)
  = filter (fun x => negb (q x)) c.
Proof.
  induction c as [|y c IH]; simpl; [reflexivity|].
  destruct (q y) eqn:Hq; simpl; [reflexivity|].
  rewrite Hq. simpl. now rewrite IH.
Qed.

(** With unique keys, [delete_one] on a key leaves no document with it. *)
Lemma delete_one_unique {K : Type} (f : Doc -> K) (same : K -> K -> bool)
    (k : K) c :
  (forall a b, same a b = true <-> a = b) ->
  NoDup (map f c) ->
  forall x, In x (delete_one (fun y => same (f y) k) c) -> f x <> k.
Proof.
  intros Hsame. induction c as [|y c IH]; simpl; [tauto|].
  intros Hnd x. inversion Hnd as [|? ? Hnotin Hnd']; subst.
  destruct (same (f y) k) eqn:Hy.
  - apply Hsame in Hy. intros Hin Hx. apply Hnotin.
    rewrite Hy, <- Hx. now apply in_map.
  - intros [<-|Hin].
    + intros Hx. apply Hsame in Hx. congruence.
    + now apply IH.
Qed.

Lemma delete_many_spec q c x :
  In x (delete_many q c) <-> In x c /\ q x = false.
Proof.
  unfold delete_many. rewrite filter_In, negb_true_iff. tauto.
Qed.

Lemma insert_one_spec (oid_of : Doc -> ObjectId) d c c' :
  insert_one oid_of d c = Some c' ->
  c' = (c ++ [d])%list /\ forall x, In x c -> oid_of x <> oid_of d.
Proof.
  unfold insert_one.
  destruct (existsb _ c) eqn:Hex; [discriminate|].
  intros [= <-]. split; [reflexivity|].
  intros x Hin Heq.
  assert (existsb (fun y => (oid_of y =? oid_of d)%string) c = true) as H.
  { apply existsb_exists. exists x. split; [assumption|].
    now apply String.eqb_eq. }
  congruence.
Qed.

Lemma insert_one_fresh (oid_of : Doc -> ObjectId) d c :
  (forall x, In x c -> oid_of x <> oid_of d) ->
  insert_one oid_of d c = Some (c ++ [d])%list.
Proof.
  intros Hfresh. unfold insert_one.
  destruct (existsb _ c) eqn:Hex; [|reflexivity].
  apply existsb_exists in Hex. destruct Hex as (x & Hin & Heq).
  apply String.eqb_eq in Heq. now apply Hfresh in Hin.
Qed.

(** Looking a fresh document up again after it was appended. *)
Lemma find_one_appended q c d :
  (forall x, In x c -> q x = false) -> q d = true ->
  find_one q (c ++ [d])%list = Some d.
Proof.
  intros Hc Hd. unfold find_one.
  induction c as [|y c IH]; simpl.
  - now rewrite Hd.
  - rewrite (Hc y) by now left. apply IH. intros x Hx. apply Hc. now right.
Qed.

Lemma find_one_none q c :
  find_one q c = None <-> forall x, In x c -> q x = false.
Proof.
  unfold find_one. split.
  - intros H x Hx. exact (find_none q c H x Hx).
  - induction c as [|y c IH]; simpl; [reflexivity|].
    intros H. rewrite (H y) by now left. apply IH. intros x Hx.
    apply H. now right.
Qed.

Lemma find_one_some q c x :
  find_one q c = Some x -> In x c /\ q x = true.
Proof. apply find_some. Qed.

Lemma find_one_exists q c x :
  In x c -> q x = true -> exists y, find_one q c = Some y.
Proof.
  intros Hin Hq. destruct (find_one q c) as [y|] eqn:Hf; [eauto|].
  rewrite find_one_none in Hf. rewrite (Hf x Hin) in Hq. discriminate.
Qed.

(** *** [sort(key, -1)] *)

Variable leb : Doc -> Doc -> bool.

Lemma insert_desc_perm x l : Permutation (insert_desc leb x l) (x :: l).
Proof.
  induction l as [|y l IH]; simpl; [reflexivity|].
  destruct (leb y x); [reflexivity|].
  rewrite IH. apply perm_swap.
Qed.

Lemma sort_desc_perm l : Permutation (sort_desc leb l) l.
Proof.
  induction l as [|x l IH]; simpl; [reflexivity|].
  rewrite insert_desc_perm. now constructor.
Qed.

Lemma sort_desc_In l x : In x (sort_desc leb l) <-> In x l.
Proof.
  split; apply Permutation_in; [|symmetry]; apply sort_desc_perm.
Qed.

Hypothesis leb_total : forall x y, leb x y = true \/ leb y x = true.
Hypothesis leb_trans :
  forall x y z, leb x y = true -> leb y z = true -> leb x z = true.

(** [descending l]: every document comes before those of smaller key. *)
Definition descending (l : list Doc) : Prop :=
  StronglySorted (fun x y => leb y x = true) l.

Lemma insert_desc_sorted x l :
  descending l -> descending (insert_desc leb x l).
Proof.
  unfold descending. induction l as [|y l IH]; simpl; intros Hs.
  - repeat constructor.
  - inversion Hs as [|? ? Hs' Hall]; subst.
    destruct (leb y x) eqn:Hyx.
    + constructor; [assumption|]. constructor; [assumption|].
      rewrite Forall_forall in *. intros z Hz. eauto.
    + constructor; [now apply IH|].
      eapply Permutation_Forall; [symmetry; apply insert_desc_perm|].
      constructor; [|assumption].
      destruct (leb_total x y) as [H|H]; [assumption|congruence].
Qed.

Lemma sort_desc_sorted l : descending (sort_desc leb l).
Proof.
  induction l as [|x l IH]; simpl.
  - constructor.
  - now apply insert_desc_sorted.
Qed.
End Collections.

Lemma string_leb_trans (a b c : string) :
  (a <=? b)%string = true -> (b <=? c)%string = true ->
  (a <=? c)%string = true.
Proof.
  revert b c. unfold String.leb.
  induction a as [|x a IH]; intros [|y b] [|z c]; simpl; try congruence.
  unfold Ascii.compare.
  destruct (N.compare_spec (N_of_ascii x) (N_of_ascii y)) as [Hxy|Hxy|Hxy];
    destruct (N.compare_spec (N_of_ascii y) (N_of_ascii z)) as [Hyz|Hyz|Hyz];
    destruct (N.compare_spec (N_of_ascii x) (N_of_ascii z)) as [Hxz|Hxz|Hxz];
    try congruence; try lia.
  apply IH.
Qed.

Lemma date_leb_trans (x y z : AttendanceDoc) :
  date_leb x y = true -> date_leb y z = true -> date_leb x z = true.
Proof. apply string_leb_trans. Qed.

Lemma date_leb_total (x y : AttendanceDoc) :
  date_leb x y = true \/ date_leb y x = true.
Proof. apply String.leb_total. Qed.

Lemma created_at_leb_total (x y : EmployeeDoc) :
  created_at_leb x y = true \/ created_at_leb y x = true.
Proof. unfold created_at_leb. rewrite !N.leb_le. lia. Qed.

Lemma created_at_leb_trans (x y z : EmployeeDoc) :
  created_at_leb x y = true -> created_at_leb y z = true ->
  created_at_leb x z = true.
Proof. unfold created_at_leb. rewrite !N.leb_le. lia. Qed.

End StoreFacts.

(* ===================================================================== *)
(** ** The employee registry *)
(* ===================================================================== *)

Import Bson Models Store Main BsonFacts StoreFacts.

Lemma by_id_true (oid : ObjectId) (e : EmployeeDoc) :
  by_id oid e = true <-> e_id e = oid.
Proof. apply String.eqb_eq. Qed.

Lemma by_id_false (oid : ObjectId) (e : EmployeeDoc) :
  by_id oid e = false <-> e_id e <> oid.
Proof. apply String.eqb_neq. Qed.

(** C2. When the store already holds an employee with the candidate's
    employee_id or with the candidate's email, [add_employee] raises a 400
    whose detail names the clashing field and its value, whatever the
    candidate's other fields are, and leaves the database as it was. *)
Theorem add_employee_rejects_duplicate
    (env : Env) (candidate : EmployeeCreate) (db : Database) (e : EmployeeDoc) :
  In e (employees db) ->
  e_employee_id e = employee_id candidate \/ e_email e = email candidate ->
  exists exn,
    add_employee env candidate db = (Raise exn, db) /\
    status_code exn = HTTP_400_BAD_REQUEST /\
    ((detail exn = "Employee ID '" ++ employee_id candidate ++ "' already exists"
      /\ exists e', In e' (employees db)
                    /\ e_employee_id e' = employee_id candidate)
     \/
     (detail exn = "Email '" ++ email candidate ++ "' is already registered"
      /\ exists e', In e' (employees db) /\ e_email e' = email candidate)).
Proof.
  intros Hin Hclash. unfold add_employee.
  destruct (find_one (fun e0 => (e_employee_id e0 =? employee_id candidate)%string)
              (employees db)) as [e1|] eqn:Hid.
  - apply find_one_some in Hid. destruct Hid as [Hin1 Heq1].
    apply String.eqb_eq in Heq1.
    eexists. split; [reflexivity|]. split; [reflexivity|].
    left. split; [reflexivity|]. eauto.
  - destruct Hclash as [Hsame|Hsame].
    + rewrite find_one_none in Hid. specialize (Hid e Hin). simpl in Hid.
      apply String.eqb_neq in Hid. contradiction.
    + destruct (find_one_exists
                  (fun e0 => (e_email e0 =? email candidate)%string)
                  (employees db) e Hin) as [e2 He2].
      { now apply String.eqb_eq. }
      rewrite He2. apply find_one_some in He2. destruct He2 as [Hin2 Heq2].
      apply String.eqb_eq in Heq2.
      eexists. split; [reflexivity|]. split; [reflexivity|].
      right. split; [reflexivity|]. eauto.
Qed.

Lemma add_employee_rejects_duplicate_witness :
  exists exn,
    add_employee Samples.env2
      {| employee_id := "EMP001"; full_name := "Someone Else";
         email := "other@example.com"; department := "Sales" |}
      Samples.db_john = (Raise exn, Samples.db_john) /\
    status_code exn = HTTP_400_BAD_REQUEST.
Proof.
  destruct (add_employee_rejects_duplicate Samples.env2
              {| employee_id := "EMP001"; full_name := "Someone Else";
                 email := "other@example.com"; department := "Sales" |}
              Samples.db_john
              {| e_id := Samples.oid1; e_employee_id := "EMP001";
                 e_full_name := "John Doe"; e_email := "john@example.com";
                 e_department := "Engineering";
                 e_created_at := Samples.at_nine (Samples.jan 9) |})
    as (exn & Hrun & Hcode & _).
  - vm_compute. left. reflexivity.
  - left. reflexivity.
  - exists exn. split; assumption.
Defined.

(** [get_employee] on the id string of a stored 12-byte id. *)
Lemma get_employee_found (db : Database) (e : EmployeeDoc) :
  String.length (e_id e) = 12%nat ->
  find_one (by_id (e_id e)) (employees db) = Some e ->
  get_employee (str (e_id e)) db = (Return (format_employee e), db).
Proof.
  intros Hlen Hfind. unfold get_employee.
  rewrite (ObjectId_of_str_str _ Hlen), Hfind. reflexivity.
Qed.

(** What [add_employee] does when neither key is taken and the generated
    id is new to the collection. *)
Lemma add_employee_inserts (env : Env) (employee : EmployeeCreate)
    (db : Database) :
  (forall e, In e (employees db) -> e_employee_id e <> employee_id employee) ->
  (forall e, In e (employees db) -> e_email e <> email employee) ->
  (forall e, In e (employees db) -> e_id e <> new_oid env) ->
  let doc := {| e_id := new_oid env;
                e_employee_id := employee_id employee;
                e_full_name := full_name employee;
                e_email := email employee;
                e_department := department employee;
                e_created_at := utcnow env |} in
  add_employee env employee db
  = (Return {| message := "Employee added successfully";
               created := format_employee doc |},
     {| employees := (employees db ++ [doc])%list;
        attendances := attendances db |})
  /\ find_one (by_id (new_oid env)) (employees db ++ [doc])%list = Some doc.
Proof.
  intros Hid Hmail Hfresh doc.
  assert (find_one (by_id (new_oid env)) (employees db ++ [doc])%list
          = Some doc) as Hfound.
  { apply find_one_appended.
    - intros x Hx. apply by_id_false. now apply Hfresh.
    - now apply by_id_true. }
  split; [|exact Hfound].
  unfold add_employee.
  replace (find_one _ (employees db)) with (@None EmployeeDoc).
  2:{ symmetry. apply find_one_none. intros x Hx.
      apply String.eqb_neq. now apply Hid. }
  replace (find_one _ (employees db)) with (@None EmployeeDoc).
  2:{ symmetry. apply find_one_none. intros x Hx.
      apply String.eqb_neq. now apply Hmail. }
  fold doc. rewrite (insert_one_fresh e_id doc (employees db)) by exact Hfresh.
  rewrite Hfound. reflexivity.
Qed.

(** C3. For a body that satisfies the field constraints of the model and
    whose employee_id and email are not in the store, POST /api/employees
    succeeds, and [get_employee] on the returned id gives back the same
    record: the four input fields as validated, the id the store generated
    and the creation time. *)
Theorem add_then_get
    (validate_email : string -> option string) (env : Env)
    (body employee : EmployeeCreate) (db : Database) :
  EmployeeCreate_validate validate_email body = Some employee ->
  (forall e, In e (employees db) -> e_employee_id e <> employee_id employee) ->
  (forall e, In e (employees db) -> e_email e <> email employee) ->
  String.length (new_oid env) = 12%nat ->
  (forall e, In e (employees db) -> e_id e <> new_oid env) ->
  exists added db',
    post_employees validate_email env body db = (Handled (Return added), db')
    /\ get_employee (j_id (created added)) db' = (Return (created added), db')
    /\ j_employee_id (created added) = employee_id employee
    /\ j_full_name (created added) = full_name employee
    /\ j_email (created added) = email employee
    /\ j_department (created added) = department employee
    /\ j_id (created added) = str (new_oid env)
    /\ j_created_at (created added) = strftime_datetime (utcnow env).
Proof.
  intros Hvalid Hid Hmail Hlen Hfresh.
  destruct (add_employee_inserts env employee db Hid Hmail Hfresh)
    as [Hadd Hfound].
  unfold post_employees. rewrite Hvalid, Hadd.
  eexists. eexists. split; [reflexivity|].
  split; [|repeat split].
  simpl created.
  match goal with
  | |- get_employee _ ?d = (Return (format_employee ?doc), _) =>
      apply (get_employee_found d doc); [exact Hlen | exact Hfound]
  end.
Qed.

Lemma add_then_get_witness :
  exists added db',
    post_employees Samples.any_email Samples.env2 Samples.jane Samples.db_john
    = (Handled (Return added), db')
    /\ get_employee (j_id (created added)) db' = (Return (created added), db')
    /\ j_email (created added) = "jane@example.com".
Proof.
  destruct (add_then_get Samples.any_email Samples.env2 Samples.jane
              Samples.jane Samples.db_john)
    as (added & db' & Hpost & Hget & _ & _ & Hmail & _).
  - reflexivity.
  - vm_compute. intros e [<-|[]]. discriminate.
  - vm_compute. intros e [<-|[]]. discriminate.
  - reflexivity.
  - vm_compute. intros e [<-|[]]. discriminate.
  - exists added, db'. repeat split; assumption.
Defined.

(* ===================================================================== *)
(** ** The attendance ledger: identifiers *)
(* ===================================================================== *)

(** C7. [get_employee_attendance] raises the 404 NotFound for a well-formed
    id that matches no employee, and the 400 InvalidIdentifier for a
    malformed id; the database is untouched. *)
Theorem get_employee_attendance_errors (employee_id : string) (db : Database) :
  (is_valid employee_id = true ->
   (forall e, In e (employees db) ->
              ObjectId_of_str employee_id <> Some (e_id e)) ->
   get_employee_attendance employee_id db = (Raise (NotFound employee_id), db)
   /\ status_code (NotFound employee_id) = 404)
  /\
  (is_valid employee_id = false ->
   get_employee_attendance employee_id db = (Raise InvalidIdentifier, db)
   /\ status_code InvalidIdentifier = 400).
Proof.
  unfold get_employee_attendance, is_valid.
  destruct (ObjectId_of_str employee_id) as [oid|]; split; try discriminate.
  - intros _ Hnone. split; [|reflexivity].
    replace (find_one (by_id oid) (employees db)) with (@None EmployeeDoc);
      [reflexivity|].
    symmetry. apply find_one_none. intros x Hx. apply by_id_false.
    intros Heq. apply (Hnone x Hx). now rewrite Heq.
  - intros _. split; reflexivity.
Qed.

Lemma get_employee_attendance_errors_witness :
  get_employee_attendance "303132333435363738396162" Samples.db_john
  = (Raise (NotFound "303132333435363738396162"), Samples.db_john)
  /\ get_employee_attendance "not-an-id" Samples.db_john
     = (Raise InvalidIdentifier, Samples.db_john).
Proof.
  split.
  - apply (get_employee_attendance_errors "303132333435363738396162"
             Samples.db_john).
    + reflexivity.
    + vm_compute. intros e [<-|[]]. discriminate.
  - apply (get_employee_attendance_errors "not-an-id" Samples.db_john).
    reflexivity.
Defined.

(* ===================================================================== *)
(** ** Deleting an employee *)
(* ===================================================================== *)

(** With unique ids, looking an employee up by its id finds that document. *)
Lemma find_one_by_id (l : list EmployeeDoc) (e : EmployeeDoc) :
  NoDup (map e_id l) -> In e l -> find_one (by_id (e_id e)) l = Some e.
Proof.
  unfold find_one. induction l as [|x l IH]; simpl; [tauto|].
  intros Hnd Hin. inversion Hnd as [|? ? Hnotin Hnd']; subst.
  destruct (by_id (e_id e) x) eqn:Hx.
  - apply by_id_true in Hx. destruct Hin as [->|Hin]; [reflexivity|].
    exfalso. apply Hnotin. rewrite Hx. now apply in_map.
  - destruct Hin as [->|Hin]; [|now apply IH].
    apply by_id_false in Hx. congruence.
Qed.

(** What [delete_employee] does to the database when the id resolves to a
    stored employee. *)
Lemma delete_employee_runs (employee_id : string) (oid : ObjectId)
    (first : EmployeeDoc) (db : Database) :
  ObjectId_of_str employee_id = Some oid ->
  find_one (by_id oid) (employees db) = Some first ->
  delete_employee employee_id db
  = (Return ("Employee " ++ e_full_name first ++ " deleted successfully"),
     {| employees := delete_one (by_id oid) (employees db);
        attendances :=
          delete_many (fun r => (a_employee_id r =? employee_id)%string)
            (attendances db) |}).
Proof.
  intros Hoid Hfind. unfold delete_employee. now rewrite Hoid, Hfind.
Qed.

(** C4. Deleting a stored employee by its well-formed id answers with a
    message that carries the employee's name and leaves no employee record
    with that id and no attendance record whose employee_id is that id:
    the employee is in no entry of the employee list, no entry of the
    attendance list (whatever the date filter) refers to the id, and the
    per-employee attendance listing of the id is NotFound. *)
Theorem delete_employee_cascades (employee_id : string) (oid : ObjectId)
    (employee : EmployeeDoc) (db : Database) :
  unique_ids db ->
  ObjectId_of_str employee_id = Some oid ->
  In employee (employees db) ->
  e_id employee = oid ->
  exists db',
    delete_employee employee_id db
    = (Return ("Employee " ++ e_full_name employee ++ " deleted successfully"),
       db')
    /\ (forall e, In e (employees db') -> e_id e <> oid)
    /\ (forall r, In r (attendances db') -> a_employee_id r <> employee_id)
    /\ (forall l, fst (get_all_employees db') = Return l ->
        forall j, In j (data l) -> j_id j <> str oid)
    /\ (forall date l, fst (get_attendance date db') = Return l ->
        forall row, In row (data l) -> r_employee_id row <> employee_id)
    /\ get_employee_attendance employee_id db'
       = (Raise (NotFound employee_id), db').
Proof.
  intros [Hnd _] Hoid Hin Hid. subst oid.
  pose proof (find_one_by_id _ _ Hnd Hin) as Hfind.
  rewrite (delete_employee_runs _ _ _ _ Hoid Hfind).
  eexists. split; [reflexivity|]. simpl employees. simpl attendances.
  assert (forall e, In e (delete_one (by_id (e_id employee)) (employees db)) ->
                    e_id e <> e_id employee) as Hemps.
  { apply (delete_one_unique e_id String.eqb (e_id employee));
      [apply String.eqb_eq | exact Hnd]. }
  assert (forall r,
             In r (delete_many (fun r => (a_employee_id r =? employee_id)%string)
                     (attendances db)) ->
             a_employee_id r <> employee_id) as Hatts.
  { intros r Hr. apply delete_many_spec in Hr. destruct Hr as [_ Hr].
    now apply String.eqb_neq. }
  split; [exact Hemps|]. split; [exact Hatts|]. split; [|split].
  - intros l [= <-] j Hj. simpl in Hj. apply in_map_iff in Hj.
    destruct Hj as (e & <- & He). apply sort_desc_In in He.
    unfold find in He. apply filter_In in He. destruct He as [He _].
    simpl. intros Heq. apply str_inj in Heq. now apply (Hemps e).
  - intros date l [= <-] row Hrow. simpl in Hrow. apply in_map_iff in Hrow.
    destruct Hrow as (r & <- & Hr). apply sort_desc_In in Hr.
    unfold find in Hr. apply filter_In in Hr. destruct Hr as [Hr _].
    simpl. now apply Hatts.
  - unfold get_employee_attendance. rewrite Hoid. simpl employees.
    replace (find_one _ _) with (@None EmployeeDoc); [reflexivity|].
    symmetry. apply find_one_none. intros x Hx. apply by_id_false.
    now apply Hemps.
Qed.

Lemma delete_employee_cascades_witness :
  exists db',
    delete_employee Samples.id1 Samples.db_marked
    = (Return "Employee John Doe deleted successfully", db')
    /\ (forall r, In r (attendances db') -> a_employee_id r <> Samples.id1).
Proof.
  destruct (delete_employee_cascades Samples.id1 Samples.oid1
              {| e_id := Samples.oid1; e_employee_id := "EMP001";
                 e_full_name := "John Doe"; e_email := "john@example.com";
                 e_department := "Engineering";
                 e_created_at := Samples.at_nine (Samples.jan 9) |}
              Samples.db_marked)
    as (db' & Hrun & _ & Hatts & _).
  - vm_compute. split; repeat constructor; simpl; tauto.
  - reflexivity.
  - vm_compute. left. reflexivity.
  - reflexivity.
  - exists db'. split; assumption.
Defined.

(** C10. Deleting a stored employee leaves the employee records with any
    other id, and the attendance records whose employee_id is not the id
    passed, exactly as they were: the same records in the same order. *)
Theorem delete_employee_frame (employee_id : string) (oid : ObjectId)
    (db : Database) :
  ObjectId_of_str employee_id = Some oid ->
  (exists e, In e (employees db) /\ e_id e = oid) ->
  exists msg db',
    delete_employee employee_id db = (Return msg, db')
    /\ filter (fun e => negb (e_id e =? oid)%string) (employees db')
       = filter (fun e => negb (e_id e =? oid)%string) (employees db)
    /\ filter (fun r => negb (a_employee_id r =? employee_id)%string)
         (attendances db')
       = filter (fun r => negb (a_employee_id r =? employee_id)%string)
           (attendances db).
Proof.
  intros Hoid (e & Hin & Hid).
  destruct (find_one_exists (by_id oid) (employees db) e Hin) as [first Hf].
  { now apply by_id_true. }
  rewrite (delete_employee_runs _ _ _ _ Hoid Hf).
  eexists. eexists. split; [reflexivity|]. simpl. split.
  - apply (delete_one_others (by_id oid)).
  - unfold delete_many. induction (attendances db) as [|r l IH]; simpl.
    + reflexivity.
    + destruct (a_employee_id r =? employee_id)%string eqn:Hr; simpl.
      * exact IH.
      * rewrite Hr. simpl. now rewrite IH.
Qed.

Lemma delete_employee_frame_witness :
  exists msg db',
    delete_employee Samples.id1 Samples.db_two = (Return msg, db')
    /\ filter (fun e => negb (e_id e =? Samples.oid1)%string) (employees db')
       = filter (fun e => negb (e_id e =? Samples.oid1)%string)
           (employees Samples.db_two).
Proof.
  destruct (delete_employee_frame Samples.id1 Samples.oid1 Samples.db_two)
    as (msg & db' & Hrun & Hemps & _).
  - reflexivity.
  - eexists. split; [vm_compute; left; reflexivity | reflexivity].
  - exists msg, db'. split; assumption.
Defined.

(* ===================================================================== *)
(** ** One record per employee id and date *)
(* ===================================================================== *)

(** How one request changes [db.attendances]: not at all, by deleting the
    records a filter selects, or by appending one record whose key no
    stored record has. *)
Lemma app_attendances (validate_email : string -> option string)
    (req : Request) (db : Database) :
  attendances (snd (app validate_email req db)) = attendances db
  \/ (exists q,
        attendances (snd (app validate_email req db))
        = delete_many q (attendances db))
  \/ (exists r,
        attendances (snd (app validate_email req db))
        = (attendances db ++ [r])%list
        /\ forall x, In x (attendances db) -> day_key x <> day_key r).
Proof.
  destruct req as [|env body|id|id|env body|date|id]; simpl.
  - now left.
  - unfold post_employees, add_employee.
    destruct (EmployeeCreate_validate _ _); [|now left].
    repeat (match goal with
            | |- context [match ?x with _ => _ end] => destruct x
            end; simpl; try (now left)).
  - unfold get_employee.
    repeat (match goal with
            | |- context [match ?x with _ => _ end] => destruct x
            end; simpl; try (now left)).
  - unfold delete_employee.
    destruct (ObjectId_of_str id); [|now left].
    destruct (find_one _ _); [|now left].
    simpl. right. left. eauto.
  - unfold post_attendance.
    destruct (AttendanceCreate_validate body) as [a|]; [|now left].
    unfold mark_attendance.
    destruct (ObjectId_of_str _); [|now left].
    destruct (find_one _ (employees db)); [|now left].
    destruct (negb _); [now left|].
    destruct (find_one _ (attendances db)) eqn:Hdup; [now left|].
    destruct (insert_one _ _ _) as [atts'|] eqn:Hins; [|now left].
    apply insert_one_spec in Hins. destruct Hins as [-> _].
    right. right. eexists. split.
    + destruct (find_one _ (attendances db ++ _)%list); reflexivity.
    + intros x Hx Hkey. rewrite find_one_none in Hdup.
      specialize (Hdup x Hx). simpl in Hdup.
      unfold day_key in Hkey. simpl in Hkey.
      injection Hkey as Hid Hdate.
      rewrite Hid, Hdate, !String.eqb_refl in Hdup. discriminate.
  - now left.
  - unfold get_employee_attendance.
    repeat (match goal with
            | |- context [match ?x with _ => _ end] => destruct x
            end; simpl; try (now left)).
Qed.

Lemma NoDup_map_filter {A B : Type} (f : A -> B) (q : A -> bool)
    (l : list A) :
  NoDup (map f l) -> NoDup (map f (filter q l)).
Proof.
  induction l as [|x l IH]; simpl; [trivial|].
  intros Hnd. inversion Hnd as [|? ? Hnotin Hnd']; subst.
  destruct (q x); simpl; [|now apply IH].
  constructor; [|now apply IH].
  intros Hin. apply Hnotin. apply in_map_iff in Hin.
  destruct Hin as (y & Hy & Hyin). apply filter_In in Hyin.
  rewrite <- Hy. apply in_map. tauto.
Qed.

Lemma NoDup_map_snoc {A B : Type} (f : A -> B) (l : list A) (x : A) :
  NoDup (map f l) -> (forall y, In y l -> f y <> f x) ->
  NoDup (map f (l ++ [x])%list).
Proof.
  intros Hnd Hfresh. rewrite map_app. simpl.
  apply NoDup_app.
  - exact Hnd.
  - repeat constructor. simpl. tauto.
  - intros b Hb [<-|[]]. apply in_map_iff in Hb.
    destruct Hb as (y & Hy & Hyin). exact (Hfresh y Hyin Hy).
Qed.

(** The invariant: no two stored attendance records share a key. *)
Lemma reachable_keys (validate_email : string -> option string)
    (db : Database) :
  reachable validate_email db -> NoDup (map day_key (attendances db)).
Proof.
  induction 1 as [|req db Hreach IH]; simpl.
  - constructor.
  - destruct (app_attendances validate_email req db)
      as [-> | [[q ->] | [r [-> Hfresh]]]].
    + exact IH.
    + now apply NoDup_map_filter.
    + now apply NoDup_map_snoc.
Qed.

Lemma NoDup_keys_at_most_one (l : list AttendanceDoc) (id d : string) :
  NoDup (map day_key l) ->
  (List.length
     (filter (fun r => (a_employee_id r =? id)%string
                       && (a_date r =? d)%string) l) <= 1)%nat.
Proof.
  induction l as [|x l IH]; simpl; [lia|].
  intros Hnd. inversion Hnd as [|? ? Hnotin Hnd']; subst.
  specialize (IH Hnd').
  destruct ((a_employee_id x =? id)%string && (a_date x =? d)%string)
    eqn:Hx; [|exact IH].
  apply andb_true_iff in Hx. destruct Hx as [Hid Hd].
  apply String.eqb_eq in Hid. apply String.eqb_eq in Hd. simpl.
  destruct (filter _ l) as [|y rest] eqn:Hf; [simpl; lia|].
  exfalso. apply Hnotin.
  assert (In y (filter (fun r => (a_employee_id r =? id)%string
                                 && (a_date r =? d)%string) l)) as Hy.
  { rewrite Hf. now left. }
  apply filter_In in Hy. destruct Hy as [Hyin Hy].
  apply andb_true_iff in Hy. destruct Hy as [Hyid Hyd].
  apply String.eqb_eq in Hyid. apply String.eqb_eq in Hyd.
  apply in_map_iff. exists y. split; [|exact Hyin].
  unfold day_key. congruence.
Qed.

(** C1. In every database that a sequence of requests (add, get, delete,
    mark and the three listings) reaches from the empty one, any employee
    id and date have at most one attendance record. *)
Theorem one_record_per_employee_and_date
    (validate_email : string -> option string) (db : Database)
    (employee_id date_str : string) :
  reachable validate_email db ->
  (List.length (records_for employee_id date_str db) <= 1)%nat.
Proof.
  intros Hreach. unfold records_for.
  apply NoDup_keys_at_most_one. exact (reachable_keys _ _ Hreach).
Qed.

Lemma one_record_per_employee_and_date_witness :
  (List.length
     (records_for Samples.id1 "2024-01-05"
        (snd (app Samples.any_email
                (POST_attendance Samples.env2 (Samples.present Samples.id1 5))
                (snd (app Samples.any_email
                        (POST_employees Samples.env1 Samples.john)
                        empty_db))))) <= 1)%nat.
Proof.
  apply (one_record_per_employee_and_date Samples.any_email).
  apply reachable_step. apply reachable_step. apply reachable_empty.
Defined.

(* ===================================================================== *)
(** ** Error paths leave the store alone *)
(* ===================================================================== *)

Ltac split_handler :=
  repeat (match goal with
          | |- context [ObjectId_of_str ?s] => destruct (ObjectId_of_str s)
          | |- context [find_one ?q ?c] => destruct (find_one q c)
          | |- context [insert_one ?f ?d ?c] => destruct (insert_one f d c)
          | |- context [if negb ?b then _ else _] => destruct (negb b)
          end; simpl).

Ltac not_a_domain_error :=
  match goal with
  | H : False |- _ => destruct H
  | H : _ \/ _ |- _ => destruct H as [H|H]; discriminate H
  end.

(** C9. A request that fails with a domain error (the 400 and 404 the
    handlers raise for a malformed id, a missing employee, a bad status, a
    taken employee_id or email, an already marked day, and the rejection
    of a body by its model) leaves the database exactly as it was. *)
Theorem domain_error_leaves_store
    (validate_email : string -> option string) (req : Request)
    (db : Database) :
  domain_error (fst (app validate_email req db)) ->
  snd (app validate_email req db) = db.
Proof.
  destruct req as [|env body|id|id|env body|date|id]; simpl.
  - tauto.
  - unfold post_employees.
    destruct (EmployeeCreate_validate _ _) as [e|]; [|reflexivity].
    simpl. unfold add_employee. split_handler;
      intros Herr; try reflexivity; not_a_domain_error.
  - unfold get_employee. split_handler; reflexivity.
  - unfold delete_employee. split_handler;
      intros Herr; try reflexivity; not_a_domain_error.
  - unfold post_attendance.
    destruct (AttendanceCreate_validate body) as [a|]; [|reflexivity].
    simpl. unfold mark_attendance. split_handler;
      intros Herr; try reflexivity; not_a_domain_error.
  - reflexivity.
  - unfold get_employee_attendance. split_handler; reflexivity.
Qed.

Lemma domain_error_leaves_store_witness :
  snd (app Samples.any_email
         (POST_attendance Samples.env3 (Samples.present Samples.id1 5))
         Samples.db_marked) = Samples.db_marked
  /\ snd (app Samples.any_email (DELETE_employee "not-an-id")
            Samples.db_marked) = Samples.db_marked.
Proof.
  split.
  - apply (domain_error_leaves_store Samples.any_email
             (POST_attendance Samples.env3 (Samples.present Samples.id1 5))
             Samples.db_marked).
    vm_compute. left. reflexivity.
  - apply (domain_error_leaves_store Samples.any_email
             (DELETE_employee "not-an-id") Samples.db_marked).
    vm_compute. left. reflexivity.
Defined.

(* ===================================================================== *)
(** ** Marking attendance: the status and the order of the checks *)
(* ===================================================================== *)

Lemma status_pattern_false (s : string) :
  s <> "Present" -> s <> "Absent" -> status_pattern s = false.
Proof.
  intros Hp Ha. unfold status_pattern.
  apply String.eqb_neq in Hp. apply String.eqb_neq in Ha.
  now rewrite Hp, Ha.
Qed.

Lemma status_pattern_true (s : string) :
  status_pattern s = true <-> s = "Present" \/ s = "Absent".
Proof.
  unfold status_pattern. now rewrite orb_true_iff, !String.eqb_eq.
Qed.

(** A body whose status is not one of the two words is rejected by the
    model, whatever else it carries. *)
Lemma post_attendance_bad_status (env : Env) (body : AttendanceBody)
    (db : Database) :
  status_pattern (body_status body) = false ->
  post_attendance env body db = (RequestValidationError, db).
Proof.
  intros Hs. unfold post_attendance, AttendanceCreate_validate.
  destruct (body_date body); [rewrite Hs|]; reflexivity.
Qed.

(** The handler's own status check, once the employee was found. *)
Lemma mark_attendance_bad_status (env : Env) (a : AttendanceCreate)
    (oid : ObjectId) (e : EmployeeDoc) (db : Database) :
  ObjectId_of_str (att_employee_id a) = Some oid ->
  find_one (by_id oid) (employees db) = Some e ->
  status_pattern (att_status a) = false ->
  mark_attendance env a db = (Raise ValidationError, db).
Proof.
  intros Hoid Hfind Hs. unfold mark_attendance.
  rewrite Hoid, Hfind. unfold status_pattern in Hs. now rewrite Hs.
Qed.

(** C5, as stated, fails: for a well-formed id of a stored employee, a
    valid date and the status "Late", the answer is the 422 of the request
    model, not a 400. *)
Lemma mark_bad_status_is_not_400 :
  is_valid Samples.id1 = true
  /\ find_one (by_id Samples.oid1) (employees Samples.db_john) <> None
  /\ ObjectId_of_str Samples.id1 = Some Samples.oid1
  /\ body_status (Samples.late Samples.id1) <> "Present"
  /\ body_status (Samples.late Samples.id1) <> "Absent"
  /\ post_attendance Samples.env2 (Samples.late Samples.id1) Samples.db_john
     = (RequestValidationError, Samples.db_john)
  /\ http_status 201
       (fst (post_attendance Samples.env2 (Samples.late Samples.id1) Samples.db_john))
     <> HTTP_400_BAD_REQUEST.
Proof.
  repeat split; try reflexivity; vm_compute; discriminate.
Qed.

(** C5, amended. A mark request whose status is neither "Present" nor
    "Absent" is rejected and inserts nothing: as a request it is refused by
    the request model with status 422 before the handler runs; the
    handler's own check, for an object that reaches it with such a status
    and the id of a stored employee, raises the 400 ValidationError. *)
Theorem mark_rejects_bad_status (env : Env) (db : Database) :
  (forall body,
      body_status body <> "Present" -> body_status body <> "Absent" ->
      post_attendance env body db = (RequestValidationError, db)
      /\ http_status 201 (fst (post_attendance env body db))
         = HTTP_422_UNPROCESSABLE_ENTITY)
  /\
  (forall a oid e,
      att_status a <> "Present" -> att_status a <> "Absent" ->
      ObjectId_of_str (att_employee_id a) = Some oid ->
      find_one (by_id oid) (employees db) = Some e ->
      mark_attendance env a db = (Raise ValidationError, db)
      /\ status_code ValidationError = HTTP_400_BAD_REQUEST).
Proof.
  split.
  - intros body Hp Ha.
    rewrite (post_attendance_bad_status env body db)
      by now apply status_pattern_false.
    split; reflexivity.
  - intros a oid e Hp Ha Hoid Hfind. split; [|reflexivity].
    apply (mark_attendance_bad_status env a oid e db Hoid Hfind).
    now apply status_pattern_false.
Qed.

Lemma mark_rejects_bad_status_witness :
  post_attendance Samples.env2 (Samples.late Samples.id1) Samples.db_john
  = (RequestValidationError, Samples.db_john)
  /\ mark_attendance Samples.env2
       {| att_employee_id := Samples.id1; att_date := Samples.jan 10;
          att_status := "Late" |} Samples.db_john
     = (Raise ValidationError, Samples.db_john).
Proof.
  destruct (mark_rejects_bad_status Samples.env2 Samples.db_john)
    as [Hroute Hhandler].
  split.
  - apply Hroute; discriminate.
  - eapply Hhandler; try discriminate; reflexivity.
Defined.

(** C6, as stated, fails: a request with the malformed id "abc" and the
    status "Late" is answered with the rejection of the body, not with
    InvalidIdentifier. *)
Lemma malformed_id_and_bad_status_is_not_invalid_identifier :
  is_valid "abc" = false
  /\ body_status (Samples.late "abc") <> "Present"
  /\ body_status (Samples.late "abc") <> "Absent"
  /\ post_attendance Samples.env2 (Samples.late "abc") Samples.db_john
     = (RequestValidationError, Samples.db_john)
  /\ fst (post_attendance Samples.env2 (Samples.late "abc") Samples.db_john)
     <> Handled (Raise InvalidIdentifier).
Proof.
  repeat split; try reflexivity; vm_compute; discriminate.
Qed.

(** C6, amended. The request model checks the body first: a status that
    does not match its pattern is refused whatever the id is.  For a body
    the model accepts, [mark_attendance] checks in this order: the id is
    well formed (else InvalidIdentifier), the employee exists (else
    NotFound), the status is one of the two words (else ValidationError),
    no record has the same employee id and date (else DuplicateRecord). *)
Theorem mark_attendance_check_order (env : Env) (db : Database) :
  (forall body,
      status_pattern (body_status body) = false ->
      post_attendance env body db = (RequestValidationError, db))
  /\
  (forall body a,
      AttendanceCreate_validate body = Some a ->
      is_valid (body_employee_id body) = false ->
      post_attendance env body db = (Handled (Raise InvalidIdentifier), db))
  /\
  (forall a,
      is_valid (att_employee_id a) = false ->
      mark_attendance env a db = (Raise InvalidIdentifier, db))
  /\
  (forall a oid,
      ObjectId_of_str (att_employee_id a) = Some oid ->
      (forall e, In e (employees db) -> e_id e <> oid) ->
      mark_attendance env a db = (Raise (NotFound (att_employee_id a)), db))
  /\
  (forall a oid e,
      ObjectId_of_str (att_employee_id a) = Some oid ->
      find_one (by_id oid) (employees db) = Some e ->
      att_status a <> "Present" -> att_status a <> "Absent" ->
      mark_attendance env a db = (Raise ValidationError, db))
  /\
  (forall a oid e r,
      ObjectId_of_str (att_employee_id a) = Some oid ->
      find_one (by_id oid) (employees db) = Some e ->
      att_status a = "Present" \/ att_status a = "Absent" ->
      In r (attendances db) ->
      a_employee_id r = att_employee_id a ->
      a_date r = strftime_date (att_date a) ->
      mark_attendance env a db
      = (Raise (DuplicateRecord (e_full_name e) (strftime_date (att_date a))),
         db)).
Proof.
  split; [|split; [|split; [|split; [|split]]]].
  - intros body. apply post_attendance_bad_status.
  - intros body a Hval Hid. unfold post_attendance. rewrite Hval.
    assert (att_employee_id a = body_employee_id body) as Ha.
    { unfold AttendanceCreate_validate in Hval.
      destruct (body_date body); [|discriminate].
      destruct (status_pattern _); [|discriminate].
      now injection Hval as <-. }
    apply is_valid_false_iff in Hid. unfold mark_attendance.
    rewrite Ha, Hid. reflexivity.
  - intros a Hid. apply is_valid_false_iff in Hid.
    unfold mark_attendance. now rewrite Hid.
  - intros a oid Hoid Hnone. unfold mark_attendance. rewrite Hoid.
    replace (find_one (by_id oid) (employees db)) with (@None EmployeeDoc);
      [reflexivity|].
    symmetry. apply find_one_none. intros x Hx. apply by_id_false. auto.
  - intros a oid e Hoid Hfind Hp Ha.
    apply (mark_attendance_bad_status env a oid e db Hoid Hfind).
    now apply status_pattern_false.
  - intros a oid e r Hoid Hfind Hs Hin Hrid Hrdate.
    apply status_pattern_true in Hs. unfold status_pattern in Hs.
    unfold mark_attendance. rewrite Hoid, Hfind, Hs. simpl.
    destruct (find_one_exists
                (fun r0 => (a_employee_id r0 =? att_employee_id a)%string
                           && (a_date r0 =? strftime_date (att_date a))%string)
                (attendances db) r Hin) as [r' Hr'].
    { now rewrite Hrid, Hrdate, !String.eqb_refl. }
    now rewrite Hr'.
Qed.

Lemma mark_attendance_check_order_witness :
  post_attendance Samples.env3 (Samples.late "abc") Samples.db_marked
  = (RequestValidationError, Samples.db_marked)
  /\ post_attendance Samples.env3 (Samples.present "abc" 5) Samples.db_marked
     = (Handled (Raise InvalidIdentifier), Samples.db_marked)
  /\ mark_attendance Samples.env3
       {| att_employee_id := Samples.id1; att_date := Samples.jan 5;
          att_status := "Present" |} Samples.db_marked
     = (Raise (DuplicateRecord "John Doe" (strftime_date (Samples.jan 5))),
        Samples.db_marked).
Proof.
  destruct (mark_attendance_check_order Samples.env3 Samples.db_marked)
    as (Hmodel & Hroute & _ & _ & _ & Hdup).
  split; [|split].
  - apply Hmodel. reflexivity.
  - eapply Hroute; reflexivity.
  - apply (Hdup {| att_employee_id := Samples.id1; att_date := Samples.jan 5;
                   att_status := "Present" |} Samples.oid1
              {| e_id := Samples.oid1; e_employee_id := "EMP001";
                 e_full_name := "John Doe"; e_email := "john@example.com";
                 e_department := "Engineering";
                 e_created_at := Samples.at_nine (Samples.jan 9) |}
              {| a_id := Samples.oid2; a_employee_id := Samples.id1;
                 a_date := "2024-01-05"; a_status := "Present";
                 a_marked_at := Samples.at_nine (Samples.jan 10) |}).
    + reflexivity.
    + reflexivity.
    + left. reflexivity.
    + vm_compute. left. reflexivity.
    + reflexivity.
    + reflexivity.
Defined.

(* ===================================================================== *)
(** ** Listing attendance by date *)
(* ===================================================================== *)

(** C8, as stated, fails: John has a record for 5 January 2024, stored as
    "2024-01-05", which is the normal form of the filter "2024-1-5"; the
    listing for that filter is empty, because the filter is compared as it
    was typed. *)
Lemma get_attendance_does_not_normalise :
  SpecWords.iso_normal_form "2024-1-5" = Some "2024-01-05"
  /\ (exists r, In r (attendances Samples.db_marked2)
                /\ a_date r = "2024-01-05")
  /\ fst (get_attendance (Some "2024-1-5") Samples.db_marked2)
     = Return (listing []).
Proof.
  split; [reflexivity|]. split; [|reflexivity].
  eexists. split; [vm_compute; left; reflexivity | reflexivity].
Qed.

(** C8, amended. The attendance listing returns, in descending order of
    the stored date, exactly the records whose stored date is the filter
    string as supplied, character for character; with no filter, or with
    the empty string as filter, it returns all records, in descending
    order of the stored date.  The database is not changed. *)
Theorem get_attendance_lists (date : option string) (db : Database) :
  exists records,
    get_attendance date db
    = (Return (listing (map (format_row (employees db)) records)), db)
    /\ descending date_leb records
    /\ (forall d, date = Some d -> d <> "" ->
        Permutation records
          (filter (fun r => (a_date r =? d)%string) (attendances db)))
    /\ (date = None \/ date = Some "" ->
        Permutation records (attendances db)).
Proof.
  exists (sort_desc date_leb (find (date_query date) (attendances db))).
  split; [reflexivity|]. split; [|split].
  - apply sort_desc_sorted; [apply date_leb_total | apply date_leb_trans].
  - intros d -> Hd. rewrite sort_desc_perm. unfold find, date_query.
    apply String.eqb_neq in Hd. rewrite Hd. reflexivity.
  - intros Hall. rewrite sort_desc_perm. unfold find.
    replace (filter (date_query date) (attendances db)) with (attendances db);
      [reflexivity|].
    symmetry. apply forallb_filter_id. apply forallb_forall. intros r _.
    destruct Hall as [-> | ->]; reflexivity.
Qed.

Lemma get_attendance_lists_witness :
  exists records,
    get_attendance (Some "2024-01-05") Samples.db_marked2
    = (Return (listing (map (format_row (employees Samples.db_marked2))
                          records)), Samples.db_marked2)
    /\ Permutation records
         (filter (fun r => (a_date r =? "2024-01-05")%string)
            (attendances Samples.db_marked2)).
Proof.
  destruct (get_attendance_lists (Some "2024-01-05") Samples.db_marked2)
    as (records & Hrun & _ & Hsel & _).
  exists records. split; [exact Hrun|].
  apply (Hsel "2024-01-05"); [reflexivity | discriminate].
Defined.

(* ===================================================================== *)
(** ** The store's own invariant, and how ids are spelled *)
(* ===================================================================== *)

Lemma NoDup_map_delete_one {A B : Type} (f : A -> B) (q : A -> bool)
    (l : list A) :
  NoDup (map f l) -> NoDup (map f (delete_one q l)).
Proof.
  induction l as [|x l IH]; simpl; [trivial|].
  intros Hnd. inversion Hnd as [|? ? Hnotin Hnd']; subst.
  destruct (q x); [assumption|]. simpl. constructor; [|now apply IH].
  intros Hin. apply Hnotin. apply in_map_iff in Hin.
  destruct Hin as (y & Hy & Hyin). rewrite <- Hy. apply in_map.
  now apply delete_one_incl in Hyin.
Qed.

Lemma insert_one_NoDup {Doc : Type} (oid_of : Doc -> ObjectId) (d : Doc)
    (c c' : list Doc) :
  insert_one oid_of d c = Some c' ->
  NoDup (map oid_of c) -> NoDup (map oid_of c').
Proof.
  intros Hins Hnd. apply insert_one_spec in Hins. destruct Hins as [-> Hfresh].
  now apply NoDup_map_snoc.
Qed.

(** One request keeps ["_id"] unique in both collections. *)
Lemma app_unique_ids (validate_email : string -> option string)
    (req : Request) (db : Database) :
  unique_ids db -> unique_ids (snd (app validate_email req db)).
Proof.
  intros [Hemps Hatts].
  destruct req as [|env body|id|id|env body|date|id]; simpl.
  - now split.
  - unfold post_employees.
    destruct (EmployeeCreate_validate _ _) as [e|]; [|now split].
    simpl. unfold add_employee.
    destruct (find_one _ (employees db)); [now split|].
    destruct (find_one _ (employees db)); [now split|].
    destruct (insert_one _ _ _) as [emps'|] eqn:Hins; [|now split].
    apply insert_one_NoDup in Hins; [|exact Hemps].
    destruct (find_one _ emps'); now split.
  - unfold get_employee. split_handler; now split.
  - unfold delete_employee.
    destruct (ObjectId_of_str id) as [oid|]; [|now split].
    destruct (find_one _ _); [|now split].
    split; simpl.
    + now apply NoDup_map_delete_one.
    + now apply NoDup_map_filter.
  - unfold post_attendance.
    destruct (AttendanceCreate_validate body) as [a|]; [|now split].
    simpl. unfold mark_attendance.
    destruct (ObjectId_of_str _); [|now split].
    destruct (find_one _ (employees db)); [|now split].
    destruct (negb _); [now split|].
    destruct (find_one _ (attendances db)); [now split|].
    destruct (insert_one _ _ _) as [atts'|] eqn:Hins; [|now split].
    apply insert_one_NoDup in Hins; [|exact Hatts].
    destruct (find_one _ atts'); now split.
  - now split.
  - unfold get_employee_attendance. split_handler; now split.
Qed.

(** Every database a run of requests reaches has unique ["_id"]s. *)
Theorem reachable_unique_ids (validate_email : string -> option string)
    (db : Database) :
  reachable validate_email db -> unique_ids db.
Proof.
  induction 1 as [|req db Hreach IH].
  - split; constructor.
  - now apply app_unique_ids.
Qed.

Lemma reachable_unique_ids_witness : unique_ids Samples.db_john.
Proof.
  apply (reachable_unique_ids Samples.any_email).
  apply (reachable_step Samples.any_email
           (POST_employees Samples.env1 Samples.john) empty_db).
  apply reachable_empty.
Defined.

(** A record is filed under the id as the request spelled it.  The
    upper-case spelling of John's id resolves to John, so the mark is
    accepted and stored under that spelling; deleting John by the
    lower-case spelling removes the employee and leaves that record. *)
Theorem delete_matches_the_spelling :
  ObjectId_of_str Samples.ID1 = ObjectId_of_str Samples.id1
  /\ map a_employee_id
       (attendances
          (snd (post_attendance Samples.env2
                  (Samples.present Samples.ID1 5) Samples.db_john)))
     = [Samples.ID1]
  /\ snd (delete_employee Samples.id1
            (snd (post_attendance Samples.env2
                    (Samples.present Samples.ID1 5) Samples.db_john)))
     = {| employees := [];
          attendances :=
            attendances
              (snd (post_attendance Samples.env2
                      (Samples.present Samples.ID1 5) Samples.db_john)) |}.
Proof. repeat split. Qed.

(** The duplicate check compares the spelling too: after John was marked
    on 5 January under the lower-case spelling, a mark for the same day
    under the upper-case spelling is accepted. *)
Theorem mark_matches_the_spelling :
  map day_key
    (attendances
       (snd (post_attendance Samples.env3 (Samples.present Samples.ID1 5)
               Samples.db_marked)))
  = [(Samples.id1, "2024-01-05"); (Samples.ID1, "2024-01-05")].
Proof. reflexivity. Qed.

(* ===================================================================== *)
(** ** What one request does to the database *)
(* ===================================================================== *)

Import Documents.

(** Every request either leaves the database as it is or writes in one of
    the three ways. *)
Lemma app_effect (validate_email : string -> option string) (req : Request)
    (db : Database) :
  snd (app validate_email req db) = db
  \/ Writes validate_email db req (snd (app validate_email req db)).
Proof.
  destruct req as [|env body|id|id|env body|date|id]; simpl.
  - now left.
  - unfold post_employees.
    destruct (EmployeeCreate_validate _ _) as [e|] eqn:Hv; [|now left].
    simpl. unfold add_employee.
    destruct (find_one _ (employees db)) eqn:Hid; [now left|].
    destruct (find_one (fun e0 => (e_email e0 =? email e)%string)
                (employees db)) eqn:Hmail; [now left|].
    destruct (insert_one _ _ _) as [emps'|] eqn:Hins; [|now left].
    apply insert_one_spec in Hins. destruct Hins as [-> Hfresh].
    right.
    replace (snd _) with
      {| employees := (employees db ++ [employee_doc env e])%list;
         attendances := attendances db |}
      by (destruct (find_one _ (employees db ++ _)%list); reflexivity).
    rewrite find_one_none in Hid, Hmail.
    apply (Writes_employee validate_email db env body e Hv).
    + intros x Hx. apply String.eqb_neq. exact (Hid x Hx).
    + intros x Hx. apply String.eqb_neq. exact (Hmail x Hx).
    + exact Hfresh.
  - unfold get_employee. split_handler; now left.
  - unfold delete_employee.
    destruct (ObjectId_of_str id) as [oid|] eqn:Hoid; [|now left].
    destruct (find_one _ _) as [e|] eqn:Hfind; [|now left].
    right. simpl. now apply (Writes_delete validate_email db id oid e).
  - unfold post_attendance.
    destruct (AttendanceCreate_validate body) as [a|] eqn:Hv; [|now left].
    simpl. unfold mark_attendance.
    destruct (ObjectId_of_str _) as [oid|] eqn:Hoid; [|now left].
    destruct (find_one _ (employees db)) as [e|] eqn:Hfind; [|now left].
    destruct (negb _) eqn:Hs; [now left|].
    destruct (find_one _ (attendances db)) eqn:Hdup; [now left|].
    destruct (insert_one _ _ _) as [atts'|] eqn:Hins; [|now left].
    apply insert_one_spec in Hins. destruct Hins as [-> Hfresh].
    right.
    replace (snd _) with
      {| employees := employees db;
         attendances := (attendances db ++ [attendance_doc env a])%list |}
      by (destruct (find_one _ (attendances db ++ _)%list); reflexivity).
    apply (Writes_attendance validate_email db env body a oid e Hv Hoid Hfind).
    + apply negb_false_iff in Hs. exact Hs.
    + intros r Hr Hkey. rewrite find_one_none in Hdup.
      specialize (Hdup r Hr). simpl in Hdup.
      unfold day_key in Hkey. simpl in Hkey. injection Hkey as Hi Hd.
      rewrite Hi, Hd, !String.eqb_refl in Hdup. discriminate.
    + exact Hfresh.
  - now left.
  - unfold get_employee_attendance. split_handler; now left.
Qed.

(* ===================================================================== *)
(** ** Invariants of the reachable databases *)
(* ===================================================================== *)

(** A property of the empty database that every write keeps holds of every
    reachable database. *)
Lemma reachable_ind_writes (validate_email : string -> option string)
    (P : Database -> Prop) :
  P empty_db ->
  (forall db req db', P db -> Writes validate_email db req db' -> P db') ->
  forall db, reachable validate_email db -> P db.
Proof.
  intros Hempty Hstep db Hreach.
  induction Hreach as [|req db Hreach IH]; [exact Hempty|].
  destruct (app_effect validate_email req db) as [-> | Hw]; [exact IH|].
  exact (Hstep db req _ IH Hw).
Qed.

(** The sample databases are reachable. *)
Lemma reachable_db_marked : reachable Samples.any_email Samples.db_marked.
Proof.
  exact (reachable_step Samples.any_email
           (POST_attendance Samples.env2 (Samples.present Samples.id1 5)) _
           (reachable_step Samples.any_email
              (POST_employees Samples.env1 Samples.john) _
              (reachable_empty Samples.any_email))).
Qed.

Lemma reachable_db_two : reachable Samples.any_email Samples.db_two.
Proof.
  exact (reachable_step Samples.any_email
           (POST_attendance Samples.env4
              (Samples.present (str Samples.oid3) 5)) _
           (reachable_step Samples.any_email
              (POST_employees Samples.env3 Samples.jane) _
              reachable_db_marked)).
Qed.

Lemma delete_one_map_incl {A B : Type} (f : A -> B) (q : A -> bool)
    (l : list A) (b : B) :
  In b (map f (delete_one q l)) -> In b (map f l).
Proof.
  intros Hin. apply in_map_iff in Hin. destruct Hin as (x & <- & Hx).
  apply in_map. now apply delete_one_incl in Hx.
Qed.

(** Under sequential execution no two stored employees share an
    employee_id, and no two share an email. *)
Theorem reachable_unique_employee_keys
    (validate_email : string -> option string) (db : Database) :
  reachable validate_email db ->
  NoDup (map e_employee_id (employees db))
  /\ NoDup (map e_email (employees db)).
Proof.
  apply (reachable_ind_writes validate_email
           (fun db => NoDup (map e_employee_id (employees db))
                      /\ NoDup (map e_email (employees db)))).
  - split; constructor.
  - intros db0 req db' [Hid Hmail] Hw.
    destruct Hw as [env body e Hv Hnoid Hnomail Hfresh
                   | id oid e Hoid Hfind
                   | env body a oid e Hv Hoid Hfind Hs Hkey Hfresh]; simpl.
    + split; apply NoDup_map_snoc; assumption.
    + split; now apply NoDup_map_delete_one.
    + now split.
Qed.

Lemma reachable_unique_employee_keys_witness :
  NoDup (map e_employee_id (employees Samples.db_two))
  /\ NoDup (map e_email (employees Samples.db_two)).
Proof.
  exact (reachable_unique_employee_keys Samples.any_email Samples.db_two
           reachable_db_two).
Defined.





(* ===================================================================== *)
(** ** The stored date determines the day *)
(* ===================================================================== *)

Lemma digit_inj (a b : N) : digit a = digit b -> a mod 10 = b mod 10.
Proof.
  unfold digit. intros H. apply (f_equal N_of_ascii) in H.
  assert (a mod 10 < 10) by (apply N.mod_lt; discriminate).
  assert (b mod 10 < 10) by (apply N.mod_lt; discriminate).
  rewrite !N_ascii_embedding in H by lia. lia.
Qed.

Lemma two_digits (a b : N) :
  a < 100 -> b < 100 ->
  (a / 10) mod 10 = (b / 10) mod 10 -> a mod 10 = b mod 10 -> a = b.
Proof.
  intros Ha Hb Hhi Hlo.
  assert (a / 10 < 10) by (apply N.Div0.div_lt_upper_bound; lia).
  assert (b / 10 < 10) by (apply N.Div0.div_lt_upper_bound; lia).
  rewrite !N.mod_small in Hhi by assumption.
  rewrite (N.div_mod a 10), (N.div_mod b 10) by discriminate. lia.
Qed.

Lemma four_digits (a b : N) :
  a < 10000 -> b < 10000 ->
  (a / 1000) mod 10 = (b / 1000) mod 10 ->
  (a / 100) mod 10 = (b / 100) mod 10 ->
  (a / 10) mod 10 = (b / 10) mod 10 ->
  a mod 10 = b mod 10 -> a = b.
Proof.
  intros Ha Hb H3 H2 H1 H0.
  assert (a / 100 = b / 100) as Hhi.
  { apply two_digits.
    - apply N.Div0.div_lt_upper_bound; lia.
    - apply N.Div0.div_lt_upper_bound; lia.
    - rewrite !N.Div0.div_div. exact H3.
    - exact H2. }
  assert (a mod 100 = b mod 100) as Hlo.
  { apply two_digits.
    - apply N.mod_lt; discriminate.
    - apply N.mod_lt; discriminate.
    - replace 100 with (10 * 10) by reflexivity.
      rewrite !N.Div0.mod_mul_r, !(N.mul_comm 10), !N.div_add by discriminate.
      rewrite !(N.div_small (_ mod 10)) by (apply N.mod_lt; discriminate).
      rewrite !N.add_0_l, !N.Div0.mod_mod. exact H1.
    - replace 100 with (10 * 10) by reflexivity.
      rewrite !N.Div0.mod_mul_r, !(N.mul_comm 10), !N.Div0.mod_add.
      rewrite !N.Div0.mod_mod. exact H0. }
  rewrite (N.div_mod a 100), (N.div_mod b 100) by discriminate.
  now rewrite Hhi, Hlo.
Qed.

(** The date string determines the date; the later proofs use this form. *)
Lemma strftime_date_determines_date (d1 d2 : date) :
  date_ok d1 -> date_ok d2 ->
  strftime_date d1 = strftime_date d2 -> d1 = d2.
Proof.
  intros (Hy1 & Hm1 & Hd1) (Hy2 & Hm2 & Hd2).
  destruct d1 as [y1 m1 n1], d2 as [y2 m2 n2]. simpl in *.
  unfold strftime_date, pad4, pad2. simpl. intros H.
  injection H as Ey3 Ey2 Ey1 Ey0 Em1 Em0 En1 En0.
  apply digit_inj in Ey3, Ey2, Ey1, Ey0, Em1, Em0, En1, En0.
  f_equal.
  - apply four_digits; try assumption; lia.
  - apply two_digits; try assumption; lia.
  - apply two_digits; try assumption; lia.
Qed.



(* ===================================================================== *)
(** ** Marking attendance: the successful path and what follows it *)
(* ===================================================================== *)

(** [mark_attendance] on an object that passes every check. *)
Lemma mark_attendance_inserts (env : Env) (a : AttendanceCreate)
    (oid : ObjectId) (e : EmployeeDoc) (db : Database) :
  ObjectId_of_str (att_employee_id a) = Some oid ->
  find_one (by_id oid) (employees db) = Some e ->
  status_pattern (att_status a) = true ->
  (forall r, In r (attendances db) ->
             a_employee_id r = att_employee_id a ->
             a_date r <> strftime_date (att_date a)) ->
  (forall r, In r (attendances db) -> a_id r <> new_oid env) ->
  mark_attendance env a db
  = (Return {| message := "Attendance marked for " ++ e_full_name e;
               created := format_marked (e_full_name e)
                            (attendance_doc env a) |},
     {| employees := employees db;
        attendances := (attendances db ++ [attendance_doc env a])%list |}).
Proof.
  intros Hoid Hfind Hs Hnodup Hfresh. unfold mark_attendance.
  rewrite Hoid, Hfind. unfold status_pattern in Hs. rewrite Hs. simpl.
  replace (find_one _ (attendances db)) with (@None AttendanceDoc).
  2:{ symmetry. apply find_one_none. intros r Hr.
      destruct (a_employee_id r =? att_employee_id a)%string eqn:Hi;
        [|reflexivity].
      apply String.eqb_eq in Hi. simpl. apply String.eqb_neq.
      now apply Hnodup. }
  fold (attendance_doc env a).
  rewrite (insert_one_fresh a_id (attendance_doc env a) (attendances db))
    by exact Hfresh.
  rewrite (find_one_appended
             (fun r => (a_id r =? new_oid env)%string) (attendances db)
             (attendance_doc env a)).
  - reflexivity.
  - intros r Hr. apply String.eqb_neq. now apply Hfresh.
  - apply String.eqb_refl.
Qed.

(** The successful mark request; the later proofs use this form. *)
Lemma post_attendance_appends (env : Env) (body : AttendanceBody) (d : date)
    (oid : ObjectId) (e : EmployeeDoc) (db : Database) :
  body_date body = Some d ->
  body_status body = "Present" \/ body_status body = "Absent" ->
  ObjectId_of_str (body_employee_id body) = Some oid ->
  find_one (by_id oid) (employees db) = Some e ->
  (forall r, In r (attendances db) ->
             a_employee_id r = body_employee_id body ->
             a_date r <> strftime_date d) ->
  (forall r, In r (attendances db) -> a_id r <> new_oid env) ->
  exists answer stored,
    post_attendance env body db
    = (Handled (Return answer),
       {| employees := employees db;
          attendances := (attendances db ++ [stored])%list |})
    /\ a_id stored = new_oid env
    /\ a_employee_id stored = body_employee_id body
    /\ a_date stored = strftime_date d
    /\ a_status stored = body_status body
    /\ a_marked_at stored = utcnow env
    /\ message answer = "Attendance marked for " ++ e_full_name e
    /\ created answer = format_marked (e_full_name e) stored.
Proof.
  intros Hd Hs Hoid Hfind Hnodup Hfresh.
  apply status_pattern_true in Hs.
  unfold post_attendance, AttendanceCreate_validate. rewrite Hd, Hs.
  cbv zeta.
  rewrite (mark_attendance_inserts env _ oid e db); try assumption.
  eexists. eexists. split; [reflexivity|]. repeat split.
Qed.



(** The duplicate lookup of [mark_attendance] finding a record. *)
Lemma mark_attendance_duplicate (env : Env) (a : AttendanceCreate)
    (oid : ObjectId) (e : EmployeeDoc) (r : AttendanceDoc) (db : Database) :
  ObjectId_of_str (att_employee_id a) = Some oid ->
  find_one (by_id oid) (employees db) = Some e ->
  status_pattern (att_status a) = true ->
  In r (attendances db) ->
  a_employee_id r = att_employee_id a ->
  a_date r = strftime_date (att_date a) ->
  mark_attendance env a db
  = (Raise (DuplicateRecord (e_full_name e) (strftime_date (att_date a))), db).
Proof.
  intros Hoid Hfind Hs Hin Hrid Hrdate. unfold mark_attendance.
  rewrite Hoid, Hfind. unfold status_pattern in Hs. rewrite Hs. simpl.
  destruct (find_one_exists
              (fun r0 => (a_employee_id r0 =? att_employee_id a)%string
                         && (a_date r0 =? strftime_date (att_date a))%string)
              (attendances db) r Hin) as [r' Hr'].
  { now rewrite Hrid, Hrdate, !String.eqb_refl. }
  now rewrite Hr'.
Qed.

(** After a mark for an id string and a day was stored, a second mark with
    the same id string and day is refused with DuplicateRecord, whatever
    its status and whenever it arrives, and changes nothing. *)
Theorem post_attendance_twice (env env' : Env) (body body' : AttendanceBody)
    (d : date) (oid : ObjectId) (e : EmployeeDoc) (db : Database) :
  body_date body = Some d ->
  body_status body = "Present" \/ body_status body = "Absent" ->
  ObjectId_of_str (body_employee_id body) = Some oid ->
  find_one (by_id oid) (employees db) = Some e ->
  (forall r, In r (attendances db) ->
             a_employee_id r = body_employee_id body ->
             a_date r <> strftime_date d) ->
  (forall r, In r (attendances db) -> a_id r <> new_oid env) ->
  body_employee_id body' = body_employee_id body ->
  body_date body' = Some d ->
  body_status body' = "Present" \/ body_status body' = "Absent" ->
  post_attendance env' body' (snd (post_attendance env body db))
  = (Handled (Raise (DuplicateRecord (e_full_name e) (strftime_date d))),
     snd (post_attendance env body db)).
Proof.
  intros Hd Hs Hoid Hfind Hnodup Hfresh Hid' Hd' Hs'.
  destruct (post_attendance_appends env body d oid e db Hd Hs Hoid Hfind
              Hnodup Hfresh)
    as (answer & stored & -> & _ & Hsid & Hsdate & _).
  simpl snd.
  apply status_pattern_true in Hs'.
  unfold post_attendance, AttendanceCreate_validate. rewrite Hd', Hs'.
  cbv zeta.
  rewrite (mark_attendance_duplicate env' _ oid e stored); simpl;
    try reflexivity; try assumption.
  - now rewrite Hid'.
  - apply in_or_app. right. now left.
  - now rewrite Hid'.
Qed.

Lemma post_attendance_twice_witness :
  post_attendance Samples.env3
    {| body_employee_id := Samples.id1; body_date := Some (Samples.jan 5);
       body_status := "Absent" |}
    (snd (post_attendance Samples.env2 (Samples.present Samples.id1 5)
            Samples.db_john))
  = (Handled (Raise (DuplicateRecord "John Doe"
                       (strftime_date (Samples.jan 5)))),
     snd (post_attendance Samples.env2 (Samples.present Samples.id1 5)
            Samples.db_john)).
Proof.
  apply (post_attendance_twice Samples.env2 Samples.env3
           (Samples.present Samples.id1 5)
           {| body_employee_id := Samples.id1;
              body_date := Some (Samples.jan 5); body_status := "Absent" |}
           (Samples.jan 5) Samples.oid1
           (employee_doc Samples.env1 Samples.john) Samples.db_john).
  - reflexivity.
  - left. reflexivity.
  - reflexivity.
  - reflexivity.
  - intros r [].
  - intros r [].
  - reflexivity.
  - reflexivity.
  - right. reflexivity.
Defined.

(** A second mark under another key; the later proofs use this form. *)
Lemma post_attendance_second_key (env1 env2 : Env)
    (body1 body2 : AttendanceBody) (d1 d2 : date) (oid1 oid2 : ObjectId)
    (e1 e2 : EmployeeDoc) (db : Database) :
  body_date body1 = Some d1 ->
  body_status body1 = "Present" \/ body_status body1 = "Absent" ->
  ObjectId_of_str (body_employee_id body1) = Some oid1 ->
  find_one (by_id oid1) (employees db) = Some e1 ->
  (forall r, In r (attendances db) ->
             a_employee_id r = body_employee_id body1 ->
             a_date r <> strftime_date d1) ->
  (forall r, In r (attendances db) -> a_id r <> new_oid env1) ->
  body_date body2 = Some d2 ->
  body_status body2 = "Present" \/ body_status body2 = "Absent" ->
  ObjectId_of_str (body_employee_id body2) = Some oid2 ->
  find_one (by_id oid2) (employees db) = Some e2 ->
  (forall r, In r (attendances db) ->
             a_employee_id r = body_employee_id body2 ->
             a_date r <> strftime_date d2) ->
  (forall r, In r (attendances db) -> a_id r <> new_oid env2) ->
  new_oid env2 <> new_oid env1 ->
  body_employee_id body2 <> body_employee_id body1
  \/ (date_ok d1 /\ date_ok d2 /\ d2 <> d1) ->
  exists answer stored1 stored2,
    post_attendance env2 body2 (snd (post_attendance env1 body1 db))
    = (Handled (Return answer),
       {| employees := employees db;
          attendances := (attendances db ++ [stored1; stored2])%list |})
    /\ day_key stored1 = (body_employee_id body1, strftime_date d1)
    /\ day_key stored2 = (body_employee_id body2, strftime_date d2).
Proof.
  intros Hd1 Hs1 Hoid1 Hfind1 Hnodup1 Hfresh1
         Hd2 Hs2 Hoid2 Hfind2 Hnodup2 Hfresh2 Hoids Hother.
  destruct (post_attendance_appends env1 body1 d1 oid1 e1 db Hd1 Hs1 Hoid1
              Hfind1 Hnodup1 Hfresh1)
    as (answer1 & stored1 & -> & Hsoid & Hsid & Hsdate & _).
  simpl snd.
  destruct (post_attendance_appends env2 body2 d2 oid2 e2
              {| employees := employees db;
                 attendances := (attendances db ++ [stored1])%list |}
              Hd2 Hs2 Hoid2 Hfind2)
    as (answer2 & stored2 & Hrun & _ & Hid2 & Hdate2 & _).
  - simpl. intros r Hr Hrid. apply in_app_or in Hr.
    destruct Hr as [Hr|[<-|[]]]; [now apply Hnodup2|].
    rewrite Hsdate. destruct Hother as [Hne | (Hok1 & Hok2 & Hne)].
    + rewrite Hsid in Hrid. congruence.
    + intros Heq. apply Hne. symmetry.
      now apply strftime_date_determines_date.
  - simpl. intros r Hr. apply in_app_or in Hr.
    destruct Hr as [Hr|[<-|[]]]; [now apply Hfresh2|].
    rewrite Hsoid. congruence.
  - exists answer2, stored1, stored2. simpl in Hrun.
    rewrite <- app_assoc in Hrun. simpl in Hrun.
    split; [exact Hrun|]. unfold day_key.
    now rewrite Hsid, Hsdate, Hid2, Hdate2.
Qed.

(** After a mark was stored, a mark for another id string, or for another
    calendar day of the same id string, is stored too. *)
Theorem post_attendance_other_key (env1 env2 : Env)
    (body1 body2 : AttendanceBody) (d1 d2 : date) (oid1 oid2 : ObjectId)
    (e1 e2 : EmployeeDoc) (db : Database) :
  body_date body1 = Some d1 ->
  body_status body1 = "Present" \/ body_status body1 = "Absent" ->
  ObjectId_of_str (body_employee_id body1) = Some oid1 ->
  find_one (by_id oid1) (employees db) = Some e1 ->
  (forall r, In r (attendances db) ->
             a_employee_id r = body_employee_id body1 ->
             a_date r <> strftime_date d1) ->
  (forall r, In r (attendances db) -> a_id r <> new_oid env1) ->
  body_date body2 = Some d2 ->
  body_status body2 = "Present" \/ body_status body2 = "Absent" ->
  ObjectId_of_str (body_employee_id body2) = Some oid2 ->
  find_one (by_id oid2) (employees db) = Some e2 ->
  (forall r, In r (attendances db) ->
             a_employee_id r = body_employee_id body2 ->
             a_date r <> strftime_date d2) ->
  (forall r, In r (attendances db) -> a_id r <> new_oid env2) ->
  new_oid env2 <> new_oid env1 ->
  body_employee_id body2 <> body_employee_id body1
  \/ (date_ok d1 /\ date_ok d2 /\ d2 <> d1) ->
  exists answer stored1 stored2,
    post_attendance env2 body2 (snd (post_attendance env1 body1 db))
    = (Handled (Return answer),
       {| employees := employees db;
          attendances := (attendances db ++ [stored1; stored2])%list |})
    /\ day_key stored1 = (body_employee_id body1, strftime_date d1)
    /\ day_key stored2 = (body_employee_id body2, strftime_date d2).
Proof. apply post_attendance_second_key. Qed.

Lemma post_attendance_other_key_witness :
  exists answer stored1 stored2,
    post_attendance Samples.env3 (Samples.present Samples.id1 10)
      (snd (post_attendance Samples.env2 (Samples.present Samples.id1 5)
              Samples.db_john))
    = (Handled (Return answer),
       {| employees := employees Samples.db_john;
          attendances :=
            (attendances Samples.db_john ++ [stored1; stored2])%list |})
    /\ day_key stored1 = (Samples.id1, strftime_date (Samples.jan 5))
    /\ day_key stored2 = (Samples.id1, strftime_date (Samples.jan 10)).
Proof.
  apply (post_attendance_other_key Samples.env2 Samples.env3
           (Samples.present Samples.id1 5) (Samples.present Samples.id1 10)
           (Samples.jan 5) (Samples.jan 10) Samples.oid1 Samples.oid1
           (employee_doc Samples.env1 Samples.john)
           (employee_doc Samples.env1 Samples.john) Samples.db_john).
  - reflexivity.
  - left. reflexivity.
  - reflexivity.
  - reflexivity.
  - intros r [].
  - intros r [].
  - reflexivity.
  - left. reflexivity.
  - reflexivity.
  - reflexivity.
  - intros r [].
  - intros r [].
  - discriminate.
  - right. unfold date_ok. simpl. repeat split; try lia. discriminate.
Defined.

(** Two spellings of one id: when the same employee is reached by two
    different id strings, a mark under the second spelling is stored for a
    day already marked under the first. *)
Theorem mark_under_two_spellings (env1 env2 : Env) (id1 id2 : string)
    (d : date) (status1 status2 : string) (oid : ObjectId) (e : EmployeeDoc)
    (db : Database) :
  ObjectId_of_str id1 = Some oid ->
  ObjectId_of_str id2 = Some oid ->
  id2 <> id1 ->
  find_one (by_id oid) (employees db) = Some e ->
  status1 = "Present" \/ status1 = "Absent" ->
  status2 = "Present" \/ status2 = "Absent" ->
  (forall r, In r (attendances db) ->
             a_employee_id r = id1 \/ a_employee_id r = id2 ->
             a_date r <> strftime_date d) ->
  (forall r, In r (attendances db) ->
             a_id r <> new_oid env1 /\ a_id r <> new_oid env2) ->
  new_oid env2 <> new_oid env1 ->
  exists answer stored1 stored2,
    post_attendance env2
      {| body_employee_id := id2; body_date := Some d;
         body_status := status2 |}
      (snd (post_attendance env1
              {| body_employee_id := id1; body_date := Some d;
                 body_status := status1 |} db))
    = (Handled (Return answer),
       {| employees := employees db;
          attendances := (attendances db ++ [stored1; stored2])%list |})
    /\ day_key stored1 = (id1, strftime_date d)
    /\ day_key stored2 = (id2, strftime_date d).
Proof.
  intros Hoid1 Hoid2 Hne Hfind Hs1 Hs2 Hnone Hfresh Hoids.
  apply (post_attendance_second_key env1 env2
           {| body_employee_id := id1; body_date := Some d;
              body_status := status1 |}
           {| body_employee_id := id2; body_date := Some d;
              body_status := status2 |}
           d d oid oid e e db);
    try assumption; try reflexivity.
  - intros r Hr Hid. apply (Hnone r Hr). now left.
  - intros r Hr. now apply Hfresh.
  - intros r Hr Hid. apply (Hnone r Hr). now right.
  - intros r Hr. now apply Hfresh.
  - now left.
Qed.

Lemma mark_under_two_spellings_witness :
  exists answer stored1 stored2,
    post_attendance Samples.env3 (Samples.present Samples.ID1 5)
      (snd (post_attendance Samples.env2 (Samples.present Samples.id1 5)
              Samples.db_john))
    = (Handled (Return answer),
       {| employees := employees Samples.db_john;
          attendances :=
            (attendances Samples.db_john ++ [stored1; stored2])%list |})
    /\ day_key stored1 = (Samples.id1, strftime_date (Samples.jan 5))
    /\ day_key stored2 = (Samples.ID1, strftime_date (Samples.jan 5)).
Proof.
  apply (mark_under_two_spellings Samples.env2 Samples.env3 Samples.id1
           Samples.ID1 (Samples.jan 5) "Present" "Present" Samples.oid1
           (employee_doc Samples.env1 Samples.john) Samples.db_john).
  - reflexivity.
  - reflexivity.
  - discriminate.
  - reflexivity.
  - left. reflexivity.
  - left. reflexivity.
  - intros r [].
  - intros r [].
  - discriminate.
Defined.

(* ===================================================================== *)
(** ** The attendance listing and its join with the employees *)
(* ===================================================================== *)

Lemma ObjectId_of_str_of_str (b oid : ObjectId) :
  ObjectId_of_str (str b) = Some oid -> b = oid.
Proof.
  unfold ObjectId_of_str.
  destruct (N.of_nat (String.length (str b)) =? 24); [|discriminate].
  rewrite fromhex_str. congruence.
Qed.

Lemma employees_get_none (emps : list EmployeeDoc) (key : string) :
  (forall e, In e emps -> str (e_id e) <> key) ->
  employees_get emps key = None.
Proof.
  intros Hnone. unfold employees_get.
  destruct (List.find _ (rev emps)) as [e|] eqn:Hf; [|reflexivity].
  apply find_some in Hf. destruct Hf as [Hin Heq].
  apply in_rev in Hin. apply String.eqb_eq in Heq.
  now apply Hnone in Hin.
Qed.

Lemma employees_get_some (emps : list EmployeeDoc) (key : string)
    (e : EmployeeDoc) :
  employees_get emps key = Some e -> In e emps /\ str (e_id e) = key.
Proof.
  unfold employees_get. intros Hf. apply find_some in Hf.
  destruct Hf as [Hin Heq]. apply in_rev in Hin.
  apply String.eqb_eq in Heq. now split.
Qed.

(** Every entry of GET /api/attendance comes from one stored record that
    passes the filter, and carries the name, employee_id and department of
    an employee whose id prints as the record's employee_id string, or the
    placeholders "Unknown", "N/A", "N/A" when no employee does. *)
Theorem get_attendance_rows (date : option string) (db : Database)
    (l : Listing AttendanceRow) (row : AttendanceRow) :
  fst (get_attendance date db) = Return l ->
  In row (data l) ->
  count l = N.of_nat (List.length (data l))
  /\ exists r,
      In r (attendances db)
      /\ date_query date r = true
      /\ r_id row = str (a_id r)
      /\ r_employee_id row = a_employee_id r
      /\ r_date row = a_date r
      /\ r_status row = a_status r
      /\ r_marked_at row = strftime_datetime (a_marked_at r)
      /\ ((exists e, In e (employees db)
                     /\ str (e_id e) = a_employee_id r
                     /\ r_employee_name row = e_full_name e
                     /\ r_details_employee_id row = e_employee_id e
                     /\ r_details_department row = e_department e)
          \/ ((forall e, In e (employees db) ->
                         str (e_id e) <> a_employee_id r)
              /\ r_employee_name row = "Unknown"
              /\ r_details_employee_id row = "N/A"
              /\ r_details_department row = "N/A")).
Proof.
  intros [= <-] Hrow. split; [reflexivity|]. simpl in Hrow.
  apply in_map_iff in Hrow. destruct Hrow as (r & <- & Hr).
  apply sort_desc_In in Hr. unfold find in Hr. apply filter_In in Hr.
  destruct Hr as [Hin Hq]. exists r. repeat (split; [easy|]).
  unfold format_row. simpl.
  destruct (employees_get (employees db) (a_employee_id r)) as [e|] eqn:Hget.
  - left. apply employees_get_some in Hget. destruct Hget as [He Hkey].
    exists e. repeat split; assumption.
  - right. split; [|repeat split].
    intros e He Hkey. unfold employees_get in Hget.
    assert (In e (rev (employees db))) as Hrev by now apply -> in_rev.
    pose proof (find_none _ _ Hget e Hrev) as Hno. simpl in Hno.
    apply String.eqb_neq in Hno. contradiction.
Qed.

Lemma get_attendance_rows_witness :
  exists r,
    In r (attendances Samples.db_marked)
    /\ r_employee_id (format_row (employees Samples.db_marked)
                        (attendance_doc Samples.env2
                           {| att_employee_id := Samples.id1;
                              att_date := Samples.jan 5;
                              att_status := "Present" |}))
       = a_employee_id r.
Proof.
  destruct (get_attendance_rows None Samples.db_marked
              (listing
                 [format_row (employees Samples.db_marked)
                    (attendance_doc Samples.env2
                       {| att_employee_id := Samples.id1;
                          att_date := Samples.jan 5;
                          att_status := "Present" |})])
              (format_row (employees Samples.db_marked)
                 (attendance_doc Samples.env2
                    {| att_employee_id := Samples.id1;
                       att_date := Samples.jan 5;
                       att_status := "Present" |})))
    as (_ & r & Hin & _ & _ & Hid & _).
  - reflexivity.
  - left. reflexivity.
  - exists r. split; assumption.
Defined.

(** Deleting an employee by one spelling of its id leaves every record
    filed under another spelling of the same id: the record stays in the
    store, its employee is gone, and the attendance listing shows it with
    the placeholder name. *)
Theorem delete_leaves_other_spelling (id1 id2 : string) (oid : ObjectId)
    (e : EmployeeDoc) (r : AttendanceDoc) (db : Database) :
  ObjectId_of_str id1 = Some oid ->
  ObjectId_of_str id2 = Some oid ->
  id2 <> id1 ->
  NoDup (map e_id (employees db)) ->
  In e (employees db) ->
  e_id e = oid ->
  In r (attendances db) ->
  a_employee_id r = id2 ->
  exists msg db',
    delete_employee id1 db = (Return msg, db')
    /\ In r (attendances db')
    /\ (forall e', In e' (employees db') -> e_id e' <> oid)
    /\ r_employee_name (format_row (employees db') r) = "Unknown"
    /\ forall l, fst (get_attendance None db') = Return l ->
                 In (format_row (employees db') r) (data l).
Proof.
  intros Hoid1 Hoid2 Hne Hnd He Heid Hr Hrid. subst oid.
  pose proof (find_one_by_id _ _ Hnd He) as Hfind.
  rewrite (delete_employee_runs _ _ _ _ Hoid1 Hfind).
  eexists. eexists. split; [reflexivity|]. simpl.
  assert (forall e', In e' (delete_one (by_id (e_id e)) (employees db)) ->
                     e_id e' <> e_id e) as Hgone.
  { apply (delete_one_unique e_id String.eqb (e_id e));
      [apply String.eqb_eq | exact Hnd]. }
  assert (In r (delete_many (fun r0 => (a_employee_id r0 =? id1)%string)
                  (attendances db))) as Hkept.
  { apply delete_many_spec. split; [exact Hr|].
    apply String.eqb_neq. congruence. }
  split; [exact Hkept|]. split; [exact Hgone|]. split.
  - unfold format_row. simpl. rewrite employees_get_none; [reflexivity|].
    intros e' He' Hkey. apply (Hgone e' He').
    rewrite <- Hrid, <- Hkey in Hoid2. now apply ObjectId_of_str_of_str.
  - intros l [= <-]. simpl. apply in_map. apply sort_desc_In.
    unfold find. apply filter_In. now split.
Qed.

Lemma delete_leaves_other_spelling_witness :
  exists msg db',
    delete_employee Samples.id1
      (snd (post_attendance Samples.env2 (Samples.present Samples.ID1 5)
              Samples.db_john)) = (Return msg, db')
    /\ In (attendance_doc Samples.env2
             {| att_employee_id := Samples.ID1; att_date := Samples.jan 5;
                att_status := "Present" |}) (attendances db').
Proof.
  destruct (delete_leaves_other_spelling Samples.id1 Samples.ID1 Samples.oid1
              (employee_doc Samples.env1 Samples.john)
              (attendance_doc Samples.env2
                 {| att_employee_id := Samples.ID1; att_date := Samples.jan 5;
                    att_status := "Present" |})
              (snd (post_attendance Samples.env2
                      (Samples.present Samples.ID1 5) Samples.db_john)))
    as (msg & db' & Hrun & Hin & _).
  - reflexivity.
  - reflexivity.
  - discriminate.
  - vm_compute. repeat constructor. simpl. tauto.
  - vm_compute. left. reflexivity.
  - reflexivity.
  - vm_compute. left. reflexivity.
  - reflexivity.
  - exists msg, db'. split; assumption.
Defined.

(* ===================================================================== *)
(** ** The other listings, and Get and Delete by id *)
(* ===================================================================== *)

(** GET /api/employees answers with every stored employee exactly once,
    latest created first, counts them, and leaves the database alone. *)
Theorem get_all_employees_lists (db : Database) :
  exists emps,
    get_all_employees db = (Return (listing (map format_employee emps)), db)
    /\ Permutation emps (employees db)
    /\ descending created_at_leb emps
    /\ count (listing (map format_employee emps))
       = N.of_nat (List.length (employees db)).
Proof.
  exists (sort_desc created_at_leb (find (fun _ => true) (employees db))).
  assert (find (fun _ : EmployeeDoc => true) (employees db) = employees db)
    as Hall.
  { unfold find. apply forallb_filter_id. now apply forallb_forall. }
  split; [reflexivity|]. split; [|split].
  - rewrite sort_desc_perm. now rewrite Hall.
  - apply sort_desc_sorted;
      [apply created_at_leb_total | apply created_at_leb_trans].
  - simpl. rewrite length_map. f_equal. rewrite Hall.
    apply Permutation_length. apply sort_desc_perm.
Qed.

(** GET /api/attendance/employee/{id} for the id of a stored employee
    answers with that employee's profile and with exactly the records
    filed under the id string as given, latest date first. *)
Theorem get_employee_attendance_lists (employee_id : string) (oid : ObjectId)
    (e : EmployeeDoc) (db : Database) :
  ObjectId_of_str employee_id = Some oid ->
  find_one (by_id oid) (employees db) = Some e ->
  exists profile records,
    get_employee_attendance employee_id db
    = (Return (profile, listing (map format_item records)), db)
    /\ Permutation records
         (filter (fun r => (a_employee_id r =? employee_id)%string)
            (attendances db))
    /\ descending date_leb records
    /\ p_id profile = str oid
    /\ p_employee_id profile = e_employee_id e
    /\ p_full_name profile = e_full_name e
    /\ p_email profile = e_email e
    /\ p_department profile = e_department e.
Proof.
  intros Hoid Hfind. unfold get_employee_attendance. rewrite Hoid, Hfind.
  apply find_one_some in Hfind. destruct Hfind as [_ Hid].
  apply by_id_true in Hid.
  eexists. eexists. split; [reflexivity|]. split; [|split].
  - apply sort_desc_perm.
  - apply sort_desc_sorted; [apply date_leb_total | apply date_leb_trans].
  - simpl. rewrite Hid. repeat split.
Qed.

Lemma get_employee_attendance_lists_witness :
  exists profile records,
    get_employee_attendance Samples.id1 Samples.db_two
    = (Return (profile, listing (map format_item records)), Samples.db_two)
    /\ Permutation records
         (filter (fun r => (a_employee_id r =? Samples.id1)%string)
            (attendances Samples.db_two))
    /\ p_full_name profile = "John Doe".
Proof.
  destruct (get_employee_attendance_lists Samples.id1 Samples.oid1
              (employee_doc Samples.env1 Samples.john) Samples.db_two)
    as (profile & records & Hrun & Hperm & _ & _ & _ & Hname & _).
  - reflexivity.
  - reflexivity.
  - exists profile, records. repeat split; assumption.
Defined.

(** GET /api/employees/{id}: InvalidIdentifier for a malformed id,
    NotFound for a well-formed id of no stored employee, and otherwise the
    stored employee with that id; the database is never changed. *)
Theorem get_employee_answers (employee_id : string) (db : Database) :
  (is_valid employee_id = false ->
   get_employee employee_id db = (Raise InvalidIdentifier, db))
  /\
  (forall oid,
      ObjectId_of_str employee_id = Some oid ->
      (forall e, In e (employees db) -> e_id e <> oid) ->
      get_employee employee_id db = (Raise (NotFound employee_id), db))
  /\
  (forall oid e,
      ObjectId_of_str employee_id = Some oid ->
      NoDup (map e_id (employees db)) ->
      In e (employees db) -> e_id e = oid ->
      get_employee employee_id db = (Return (format_employee e), db)).
Proof.
  unfold get_employee. split; [|split].
  - intros Hbad. apply is_valid_false_iff in Hbad. now rewrite Hbad.
  - intros oid -> Hnone.
    replace (find_one (by_id oid) (employees db)) with (@None EmployeeDoc);
      [reflexivity|].
    symmetry. apply find_one_none. intros x Hx. apply by_id_false. auto.
  - intros oid e -> Hnd He <-. now rewrite (find_one_by_id _ _ Hnd He).
Qed.

Lemma get_employee_answers_witness :
  get_employee "12345" Samples.db_two = (Raise InvalidIdentifier, Samples.db_two)
  /\ get_employee (str Samples.oid3) Samples.db_two
     = (Return (format_employee (employee_doc Samples.env3 Samples.jane)),
        Samples.db_two).
Proof.
  destruct (get_employee_answers "12345" Samples.db_two) as (Hbad & _ & _).
  destruct (get_employee_answers (str Samples.oid3) Samples.db_two)
    as (_ & _ & Hgood).
  split.
  - apply Hbad. reflexivity.
  - apply (Hgood Samples.oid3).
    + reflexivity.
    + vm_compute. repeat constructor; simpl; intuition discriminate.
    + vm_compute. right. left. reflexivity.
    + reflexivity.
Defined.

(** DELETE /api/employees/{id}: InvalidIdentifier for a malformed id and
    NotFound for a well-formed id of no stored employee, with nothing
    deleted; and once an employee was deleted, deleting or getting the
    same id again is NotFound. *)
Theorem delete_employee_answers (employee_id : string) (db : Database) :
  (is_valid employee_id = false ->
   delete_employee employee_id db = (Raise InvalidIdentifier, db))
  /\
  (forall oid,
      ObjectId_of_str employee_id = Some oid ->
      (forall e, In e (employees db) -> e_id e <> oid) ->
      delete_employee employee_id db = (Raise (NotFound employee_id), db))
  /\
  (forall oid e,
      ObjectId_of_str employee_id = Some oid ->
      NoDup (map e_id (employees db)) ->
      In e (employees db) -> e_id e = oid ->
      delete_employee employee_id (snd (delete_employee employee_id db))
      = (Raise (NotFound employee_id), snd (delete_employee employee_id db))
      /\ get_employee employee_id (snd (delete_employee employee_id db))
         = (Raise (NotFound employee_id),
            snd (delete_employee employee_id db))).
Proof.
  split; [|split].
  - intros Hbad. apply is_valid_false_iff in Hbad.
    unfold delete_employee. now rewrite Hbad.
  - intros oid Hoid Hnone. unfold delete_employee. rewrite Hoid.
    replace (find_one (by_id oid) (employees db)) with (@None EmployeeDoc);
      [reflexivity|].
    symmetry. apply find_one_none. intros x Hx. apply by_id_false. auto.
  - intros oid e Hoid Hnd He <-.
    rewrite (delete_employee_runs _ _ _ _ Hoid (find_one_by_id _ _ Hnd He)).
    simpl snd.
    assert (find_one (by_id (e_id e))
              (delete_one (by_id (e_id e)) (employees db)) = None) as Hgone.
    { apply find_one_none. intros x Hx. apply by_id_false.
      revert x Hx. apply (delete_one_unique e_id String.eqb (e_id e));
        [apply String.eqb_eq | exact Hnd]. }
    unfold delete_employee, get_employee. simpl employees.
    now rewrite Hoid, Hgone.
Qed.

Lemma delete_employee_answers_witness :
  delete_employee "12345" Samples.db_two
  = (Raise InvalidIdentifier, Samples.db_two)
  /\ delete_employee Samples.id1 (snd (delete_employee Samples.id1 Samples.db_two))
     = (Raise (NotFound Samples.id1),
        snd (delete_employee Samples.id1 Samples.db_two)).
Proof.
  destruct (delete_employee_answers "12345" Samples.db_two) as (Hbad & _ & _).
  destruct (delete_employee_answers Samples.id1 Samples.db_two)
    as (_ & _ & Hagain).
  split.
  - apply Hbad. reflexivity.
  - apply (Hagain Samples.oid1 (employee_doc Samples.env1 Samples.john)).
    + reflexivity.
    + vm_compute. repeat constructor; simpl; intuition discriminate.
    + vm_compute. left. reflexivity.
    + reflexivity.
Defined.

(* ===================================================================== *)
(** ** What the routes never touch *)
(* ===================================================================== *)

(** A GET request never changes the database, whatever it answers; adding
    an employee never touches the attendance records, and marking
    attendance never touches the employees. *)
Theorem routes_frame (validate_email : string -> option string)
    (req : Request) (db : Database) :
  (is_get req = true -> snd (app validate_email req db) = db)
  /\ (forall env body, req = POST_employees env body ->
        attendances (snd (app validate_email req db)) = attendances db)
  /\ (forall env body, req = POST_attendance env body ->
        employees (snd (app validate_email req db)) = employees db).
Proof.
  split; [|split].
  - destruct req; try discriminate; intros _; simpl.
    + reflexivity.
    + unfold get_employee. split_handler; reflexivity.
    + reflexivity.
    + unfold get_employee_attendance. split_handler; reflexivity.
  - intros env body ->.
    pose proof (app_effect validate_email (POST_employees env body) db) as H.
    remember (snd (app validate_email (POST_employees env body) db)) as db'
      eqn:E.
    clear E. destruct H as [-> | Hw]; [reflexivity|].
    inversion Hw. reflexivity.
  - intros env body ->.
    pose proof (app_effect validate_email (POST_attendance env body) db) as H.
    remember (snd (app validate_email (POST_attendance env body) db)) as db'
      eqn:E.
    clear E. destruct H as [-> | Hw]; [reflexivity|].
    inversion Hw. reflexivity.
Qed.

Lemma routes_frame_witness :
  snd (app Samples.any_email (GET_attendance (Some "2024-01-05"))
         Samples.db_two) = Samples.db_two
  /\ employees
       (snd (app Samples.any_email
               (POST_attendance Samples.env3 (Samples.present Samples.id1 10))
               Samples.db_marked)) = employees Samples.db_marked.
Proof.
  split.
  - apply (routes_frame Samples.any_email
             (GET_attendance (Some "2024-01-05")) Samples.db_two).
    reflexivity.
  - apply (routes_frame Samples.any_email
             (POST_attendance Samples.env3 (Samples.present Samples.id1 10))
             Samples.db_marked) with (env := Samples.env3)
             (body := Samples.present Samples.id1 10).
    reflexivity.
Defined.

(* ===================================================================== *)
(** ** Adding an employee: the model first, then the two lookups *)
(* ===================================================================== *)



(** The two lookups of [add_employee], each finding a stored employee. *)
Lemma add_employee_clash (env : Env) (c : EmployeeCreate) (db : Database)
    (e : EmployeeDoc) :
  In e (employees db) ->
  e_employee_id e = employee_id c \/ e_email e = email c ->
  exists exn,
    add_employee env c db = (Raise exn, db)
    /\ status_code exn = HTTP_400_BAD_REQUEST.
Proof.
  intros Hin Hclash. unfold add_employee.
  destruct (find_one (fun e0 => (e_employee_id e0 =? employee_id c)%string)
              (employees db)) eqn:Hid.
  - eexists. split; reflexivity.
  - destruct Hclash as [Hsame|Hsame].
    + rewrite find_one_none in Hid. specialize (Hid e Hin). simpl in Hid.
      apply String.eqb_neq in Hid. contradiction.
    + destruct (find_one_exists (fun e0 => (e_email e0 =? email c)%string)
                  (employees db) e Hin) as [e2 He2].
      { now apply String.eqb_eq. }
      rewrite He2. eexists. split; reflexivity.
Qed.

(** After an employee was added, a second add that repeats its
    employee_id or its email is refused with a 400 and stores nothing,
    whatever its other fields and whatever id the driver generates. *)
Theorem add_employee_twice (env env' : Env) (c c' : EmployeeCreate)
    (db : Database) :
  (forall e, In e (employees db) -> e_employee_id e <> employee_id c) ->
  (forall e, In e (employees db) -> e_email e <> email c) ->
  (forall e, In e (employees db) -> e_id e <> new_oid env) ->
  employee_id c' = employee_id c \/ email c' = email c ->
  exists exn,
    add_employee env' c' (snd (add_employee env c db))
    = (Raise exn, snd (add_employee env c db))
    /\ status_code exn = HTTP_400_BAD_REQUEST
    /\ employees (snd (add_employee env c db))
       = (employees db ++ [employee_doc env c])%list.
Proof.
  intros Hid Hmail Hfresh Hrepeat.
  destruct (add_employee_inserts env c db Hid Hmail Hfresh) as [-> _].
  simpl snd.
  destruct (add_employee_clash env' c'
              {| employees := (employees db ++ [employee_doc env c])%list;
                 attendances := attendances db |}
              (employee_doc env c)) as (exn & Hrun & Hcode).
  - simpl. apply in_or_app. right. now left.
  - simpl. destruct Hrepeat as [H|H]; [left | right]; now rewrite H.
  - exists exn. repeat split; assumption.
Qed.

Lemma add_employee_twice_witness :
  exists exn,
    add_employee Samples.env2
      {| employee_id := "EMP777"; full_name := "Johnny";
         email := "john@example.com"; department := "Sales" |}
      (snd (add_employee Samples.env1 Samples.john empty_db))
    = (Raise exn, snd (add_employee Samples.env1 Samples.john empty_db))
    /\ status_code exn = HTTP_400_BAD_REQUEST.
Proof.
  destruct (add_employee_twice Samples.env1 Samples.env2 Samples.john
              {| employee_id := "EMP777"; full_name := "Johnny";
                 email := "john@example.com"; department := "Sales" |}
              empty_db) as (exn & Hrun & Hcode & _).
  - intros e [].
  - intros e [].
  - intros e [].
  - right. reflexivity.
  - exists exn. split; assumption.
Defined.

(* ===================================================================== *)
(** ** PyObjectId.validate and serialize_doc *)
(* ===================================================================== *)

(** [PyObjectId.validate] gives back the id that [str] printed, refuses
    whatever [ObjectId.is_valid] refuses, and accepts only strings of 24
    characters. *)
Theorem PyObjectId_validate_round_trip :
  (forall b, String.length b = 12%nat -> PyObjectId_validate (str b) = Some b)
  /\ (forall v, is_valid v = false -> PyObjectId_validate v = None)
  /\ (forall v oid, PyObjectId_validate v = Some oid ->
                    String.length v = 24%nat).
Proof.
  unfold PyObjectId_validate, is_valid. split; [|split].
  - intros b Hlen. now rewrite (ObjectId_of_str_str b Hlen).
  - intros v. destruct (ObjectId_of_str v); [discriminate | reflexivity].
  - intros v oid. unfold ObjectId_of_str.
    destruct (N.of_nat (String.length v) =? 24) eqn:Hlen; [|discriminate].
    intros _. apply N.eqb_eq in Hlen. lia.
Qed.

Lemma PyObjectId_validate_round_trip_witness :
  PyObjectId_validate (str Samples.oid1) = Some Samples.oid1
  /\ PyObjectId_validate "EMP001" = None.
Proof.
  destruct PyObjectId_validate_round_trip as (Hback & Hbad & _).
  split.
  - apply Hback. reflexivity.
  - apply Hbad. reflexivity.
Defined.

Lemma dict_set_keys (key : string) (v : Value) (d : Dict) :
  dict_has key d = true -> map fst (dict_set key v d) = map fst d.
Proof.
  unfold dict_has. induction d as [|[k w] d IH]; simpl; [discriminate|].
  destruct (k =? key)%string; simpl; [reflexivity|].
  intros Hhas. now rewrite IH.
Qed.

Lemma dict_get_set_other (key key' : string) (v : Value) (d : Dict) :
  key' <> key -> dict_get key' (dict_set key v d) = dict_get key' d.
Proof.
  intros Hne. unfold dict_get.
  induction d as [|[k w] d IH]; simpl.
  - apply String.eqb_neq in Hne. rewrite String.eqb_sym in Hne.
    now rewrite Hne.
  - destruct (k =? key)%string eqn:Hk; simpl.
    + apply String.eqb_eq in Hk. subst k.
      apply String.eqb_neq in Hne. rewrite String.eqb_sym in Hne.
      now rewrite Hne.
    + destruct (k =? key')%string; [reflexivity | exact IH].
Qed.

Lemma dict_get_set_same (key : string) (v : Value) (d : Dict) :
  dict_get key (dict_set key v d) = Some v.
Proof.
  unfold dict_get. induction d as [|[k w] d IH]; simpl.
  - now rewrite String.eqb_refl.
  - destruct (k =? key)%string eqn:Hk; simpl; rewrite Hk; [reflexivity|].
    exact IH.
Qed.

Lemma dict_has_get (key : string) (d : Dict) :
  dict_has key d = true <-> exists v, dict_get key d = Some v.
Proof.
  unfold dict_has, dict_get. induction d as [|[k w] d IH]; simpl.
  - split; [discriminate | intros [v Hv]; discriminate].
  - destruct (k =? key)%string; simpl; [|exact IH].
    split; [eauto | reflexivity].
Qed.

Lemma dict_has_set (key : string) (v : Value) (d : Dict) :
  dict_has key (dict_set key v d) = true.
Proof. apply dict_has_get. exists v. apply dict_get_set_same. Qed.

Lemma dict_set_idem (key : string) (v : Value) (d : Dict) :
  dict_set key v (dict_set key v d) = dict_set key v d.
Proof.
  induction d as [|[k w] d IH]; simpl.
  - now rewrite String.eqb_refl.
  - destruct (k =? key)%string eqn:Hk; simpl; rewrite Hk;
      [reflexivity | now rewrite IH].
Qed.

Lemma dict_set_nonempty (key : string) (v : Value) (d : Dict) :
  dict_set key v d <> [].
Proof.
  destruct d as [|[k w] d]; simpl; [discriminate|].
  destruct (k =? key)%string; discriminate.
Qed.

Lemma serialize_doc_nonempty (d : Dict) :
  d <> [] ->
  serialize_doc (Some d)
  = if dict_has "_id" d
    then match dict_get "_id" d with
         | Some v => Some (dict_set "_id" (VStr (str_value v)) d)
         | None => Some d
         end
    else Some d.
Proof. destruct d; [contradiction | reflexivity]. Qed.

(** [serialize_doc] keeps the keys of the document in their order and the
    value under every key but ["_id"]; the value under ["_id"], when there
    is one, becomes its string form; serializing the result again changes
    nothing. *)
Theorem serialize_doc_spec (d : Dict) :
  exists d',
    serialize_doc (Some d) = Some d'
    /\ map fst d' = map fst d
    /\ (forall key, key <> "_id" -> dict_get key d' = dict_get key d)
    /\ dict_get "_id" d'
       = option_map (fun v => VStr (str_value v)) (dict_get "_id" d)
    /\ serialize_doc (Some d') = Some d'.
Proof.
  destruct d as [|kv d0]; [exists []; repeat split; reflexivity|].
  remember (kv :: d0) as d eqn:Hd.
  assert (d <> []) as Hne by (subst d; discriminate). clear Hd kv d0.
  rewrite (serialize_doc_nonempty d Hne).
  destruct (dict_has "_id" d) eqn:Hhas.
  - destruct (proj1 (dict_has_get "_id" d) Hhas) as [v Hv].
    rewrite Hv. eexists. split; [reflexivity|].
    split; [now apply dict_set_keys|]. split; [|split].
    + intros key Hkey. now apply dict_get_set_other.
    + rewrite dict_get_set_same. reflexivity.
    + rewrite (serialize_doc_nonempty _ (dict_set_nonempty _ _ d)).
      rewrite dict_has_set, dict_get_set_same. simpl.
      now rewrite dict_set_idem.
  - exists d. split; [reflexivity|]. split; [reflexivity|].
    split; [reflexivity|]. split.
    + destruct (dict_get "_id" d) as [v|] eqn:Hv; [|reflexivity].
      assert (dict_has "_id" d = true) as H by (apply dict_has_get; eauto).
      congruence.
    + rewrite (serialize_doc_nonempty d Hne). now rewrite Hhas.
Qed.

(** On an employee document, [serialize_doc] puts under ["_id"] the id
    string that the handlers put into their responses. *)
Theorem serialize_doc_employee (e : EmployeeDoc) :
  exists d',
    serialize_doc (Some (employee_dict e)) = Some d'
    /\ dict_get "_id" d' = Some (VStr (j_id (format_employee e)))
    /\ dict_get "email" d' = Some (VStr (j_email (format_employee e)))
    /\ serialize_doc None = None.
Proof.
  eexists. repeat split.
Qed.

(* ===================================================================== *)
(** ** The life of the shared connection *)
(* ===================================================================== *)

Module DatabasePyFacts.
Import DatabasePy.

Lemma length_close_at (c : nat) (l : list MotorClient) :
  List.length (close_at c l) = List.length l.
Proof.
  revert c. induction l as [|x l IH]; intros [|c]; simpl; auto.
Qed.

Lemma close_at_closes (c : nat) (l : list MotorClient) :
  (c < List.length l)%nat ->
  option_map closed (nth_error (close_at c l) c) = Some true.
Proof.
  revert c. induction l as [|x l IH]; intros [|c]; simpl; try lia.
  - reflexivity.
  - intros H. apply IH. lia.
Qed.

Lemma close_at_others (c c' : nat) (l : list MotorClient) :
  c' <> c -> nth_error (close_at c l) c' = nth_error l c'.
Proof.
  revert c c'. induction l as [|x l IH]; intros [|c] [|c'] Hne; simpl;
    try reflexivity; try contradiction.
  apply IH. congruence.
Qed.

(** After any sequence of startup and shutdown calls: [get_database] is
    [None] exactly when [connect_to_mongo] never ran; otherwise it is the
    configured database of the client created last, which is also the
    global [client]. *)
Theorem get_database_after_calls (environ : string -> option string)
    (cs : list Call) :
  (get_database (calls environ cs) = None <-> ~ In Connect cs)
  /\ forall c name,
       get_database (calls environ cs) = Some (c, name) ->
       client (calls environ cs) = Some c
       /\ S c = List.length (objects (calls environ cs))
       /\ name = DATABASE_NAME environ.
Proof.
  unfold calls.
  assert (forall g,
             ((db g = None <-> client g = None)
              /\ forall c name, db g = Some (c, name) ->
                   client g = Some c /\ S c = List.length (objects g)
                   /\ name = DATABASE_NAME environ) ->
             forall cs0,
               let g' := fold_left (call environ) cs0 g in
               ((db g' = None <-> (db g = None /\ ~ In Connect cs0))
                /\ forall c name, db g' = Some (c, name) ->
                     client g' = Some c /\ S c = List.length (objects g')
                     /\ name = DATABASE_NAME environ)) as Hgen.
  { intros g Hg cs0. revert g Hg.
    induction cs0 as [|k cs0 IH]; intros g [Hnone Hsome]; simpl.
    - split; [tauto | exact Hsome].
    - destruct k; simpl.
      + destruct (IH (connect_to_mongo environ g)) as [H1 H2].
        { simpl. split; [split; discriminate|].
          intros c name [= <- <-]. rewrite length_app. simpl.
          repeat split. lia. }
        split; [|exact H2]. rewrite H1. simpl. split.
        * intros [H _]. discriminate.
        * intros [_ H]. exfalso. apply H. now left.
      + destruct (IH (close_mongo_connection g)) as [H1 H2].
        { unfold close_mongo_connection.
          destruct (client g) as [c0|] eqn:Hc; simpl.
          - split.
            + rewrite Hnone. split; discriminate.
            + intros c name Hdb. rewrite length_close_at. now apply Hsome.
          - rewrite Hc. split; [exact Hnone | exact Hsome]. }
        split; [|exact H2]. rewrite H1.
        assert (db (close_mongo_connection g) = db g) as ->.
        { unfold close_mongo_connection. now destruct (client g). }
        split.
        * intros [H Hn]. split; [exact H|]. intros [Hk|Hk];
            [discriminate | contradiction].
        * intros [H Hn]. split; [exact H|]. intros Hk. apply Hn. now right. }
  destruct (Hgen imported) with (cs0 := cs) as [H1 H2].
  { simpl. split; [tauto | discriminate]. }
  split; [|exact H2]. unfold get_database. rewrite H1. simpl. tauto.
Qed.

Lemma get_database_after_calls_witness :
  client (calls (fun _ => None) [Connect; Close]) = Some 0%nat
  /\ S 0 = List.length (objects (calls (fun _ => None) [Connect; Close]))
  /\ "hrms_lite"%string = DATABASE_NAME (fun _ => None).
Proof.
  destruct (get_database_after_calls (fun _ => None) [Connect; Close])
    as [_ H].
  apply (H 0%nat "hrms_lite"%string). reflexivity.
Defined.

(** Shutdown closes the client the globals refer to and nothing else: the
    globals still name that client, so [get_database] keeps returning its
    database, and every other client object is as it was; without a
    client, shutdown does nothing at all. *)
Theorem close_mongo_connection_effect (g : Globals) :
  (client g = None -> close_mongo_connection g = g)
  /\ forall c,
       client g = Some c -> (c < List.length (objects g))%nat ->
       get_database (close_mongo_connection g) = get_database g
       /\ client (close_mongo_connection g) = Some c
       /\ option_map closed (nth_error (objects (close_mongo_connection g)) c)
          = Some true
       /\ forall c', c' <> c ->
            nth_error (objects (close_mongo_connection g)) c'
            = nth_error (objects g) c'.
Proof.
  unfold close_mongo_connection, get_database. split.
  - intros ->. reflexivity.
  - intros c Hc Hlt. rewrite Hc. simpl. repeat split.
    + now apply close_at_closes.
    + intros c' Hne. now apply close_at_others.
Qed.

Lemma close_mongo_connection_effect_witness :
  option_map closed
    (nth_error
       (objects (close_mongo_connection
                   (calls (fun _ => None) [Connect; Connect]))) 1)
  = Some true
  /\ option_map closed
       (nth_error
          (objects (close_mongo_connection
                      (calls (fun _ => None) [Connect; Connect]))) 0)
     = Some false.
Proof.
  destruct (close_mongo_connection_effect
              (calls (fun _ => None) [Connect; Connect])) as [_ H].
  destruct (H 1%nat) as (_ & _ & Hclosed & Hothers);
    [reflexivity | simpl; lia |].
  split; [exact Hclosed|].
  rewrite (Hothers 0%nat) by discriminate. reflexivity.
Defined.

End DatabasePyFacts.
